(** * herd-notify-slack: the Slack notification adapter

    A shallow embedding of [herd_notify_slack/adapter.py] and the
    properties of its four operations: [post], [post_thread],
    [get_thread_replies] and [search].

    Conventions of the embedding.
    - A Python [str] that can be encoded is a Rocq [string] holding its
      UTF-8 bytes; where encoding itself can fail (the read operations
      encode their arguments before their [try]) the caller's [str] is a
      [pystr], its code points.
    - A value produced by [json.loads] is a [json] term; a Python [dict] is
      an association list whose first binding of a key is the live one.
    - Python exceptions are explicit: a computation is a [py A], either
      [Ret a] or [Raise e].
    - The network is an oracle [urlopen]: the one round trip an operation
      performs is the oracle applied to the request the operation built. *)

From Stdlib Require Import ZArith List String Ascii Bool Lia.
From Stdlib Require Import DecimalString SpecFloat.
Import ListNotations.

Local Open Scope string_scope.
Local Open Scope Z_scope.

Set Warnings "-register-all".

(** ** Python values *)

(** What [json.loads] can return. Integers are unbounded, floats are IEEE
    binary64 values (NaN and the infinities are accepted by [json.loads]). *)
Inductive json : Type :=
| JNull
| JBool (b : bool)
| JInt (z : Z)
| JFloat (f : spec_float)
| JStr (s : string)
| JArr (l : list json)
| JObj (d : list (string * json)).

Definition dict : Type := list (string * json).

(** [d.get(k)] as an option: [None] when the key is absent. *)
Fixpoint dict_get (d : dict) (k : string) : option json :=
  match d with
  | [] => None
  | (k', v) :: rest => if String.eqb k' k then Some v else dict_get rest k
  end.

(** [d.get(k, default)] *)
Definition dict_get_default (d : dict) (k : string) (default : json) : json :=
  match dict_get d k with
  | Some v => v
  | None => default
  end.

(** [d[k] = v]: overwrite the live binding, or append a new key. *)
Fixpoint dict_set (d : dict) (k : string) (v : json) : dict :=
  match d with
  | [] => [(k, v)]
  | (k', v') :: rest =>
      if String.eqb k' k then (k', v) :: rest else (k', v') :: dict_set rest k v
  end.

(** [k in d] *)
Definition dict_mem (d : dict) (k : string) : bool :=
  match dict_get d k with
  | Some _ => true
  | None => false
  end.

(** [len(d)]: the number of distinct keys. *)
Definition dict_len (d : dict) : nat :=
  List.length (nodup string_dec (map fst d)).

(** A continuation byte of a UTF-8 sequence: [10xxxxxx]. *)
Definition is_continuation (c : ascii) : bool :=
  match c with
  | Ascii _ _ _ _ _ _ b6 b7 => b7 && negb b6
  end.

(** The characters (code points) of a [str], each with its UTF-8 bytes. The
    first component collects continuation bytes met before any lead byte. *)
Fixpoint utf8_chars_aux (s : string) : string * list string :=
  match s with
  | EmptyString => (EmptyString, [])
  | String c rest =>
      let (conts, chars) := utf8_chars_aux rest in
      if is_continuation c then (String c conts, chars)
      else (EmptyString, String c conts :: chars)
  end.

Definition utf8_chars (s : string) : list string :=
  let (conts, chars) := utf8_chars_aux s in
  match conts with
  | EmptyString => chars
  | _ => conts :: chars
  end.

(** Python truthiness, [bool(v)]. *)
Definition py_truthy (v : json) : bool :=
  match v with
  | JNull => false
  | JBool b => b
  | JInt z => negb (z =? 0)
  | JFloat (S754_zero _) => false
  | JFloat _ => true
  | JStr EmptyString => false
  | JStr _ => true
  | JArr [] => false
  | JArr _ => true
  | JObj [] => false
  | JObj _ => true
  end.

(** Truthiness of a [str]: only the empty string is falsy. *)
Definition truthy_str (s : string) : bool :=
  match s with
  | EmptyString => false
  | String _ _ => true
  end.

(** Truthiness of an optional [str] argument ([str | None]). *)
Definition truthy_arg (a : option string) : bool :=
  match a with
  | None => false
  | Some s => truthy_str s
  end.

(** [a or default] for an optional [str] argument. *)
Definition arg_or (a : option string) (default : string) : string :=
  match a with
  | None => default
  | Some s => if truthy_str s then s else default
  end.

(** ** Exceptions *)

(** What the round trip [urlopen(req)] followed by [json.loads(resp.read())]
    can raise: [urllib.error.HTTPError] with its [code] and [reason], or any
    other [Exception] (a connection failure, a body that is not JSON), kept
    with its text [str(e)]. *)
Inductive transport_error : Type :=
| HTTPError (code : Z) (reason : string)
| OtherException (text : string).

Inductive exn : Type :=
| RuntimeError (msg : string)
| KeyError (key : string)
| AttributeError
| TypeError
| UnicodeEncodeError
| Transport (e : transport_error).

Inductive py (A : Type) : Type :=
| Ret (a : A)
| Raise (e : exn).

Arguments Ret {A} a.
Arguments Raise {A} e.

Definition bind {A B : Type} (m : py A) (k : A -> py B) : py B :=
  match m with
  | Ret a => k a
  | Raise e => Raise e
  end.

Notation "x <- m ;; k" := (bind m (fun x => k))
  (at level 61, m at next level, right associativity).

(** [try: m  except Exception: h] *)
Definition try_except {A : Type} (m : py A) (h : exn -> py A) : py A :=
  match m with
  | Ret a => Ret a
  | Raise e => h e
  end.

(** [for x in l] collecting [f x], stopping at the first exception. *)
Fixpoint py_map {A B : Type} (f : A -> py B) (l : list A) : py (list B) :=
  match l with
  | [] => Ret []
  | x :: rest =>
      y <- f x ;;
      ys <- py_map f rest ;;
      Ret (y :: ys)
  end.

(** [v.get(k, default)]: only a dict has a [get] attribute. *)
Definition py_get (v : json) (k : string) (default : json) : py json :=
  match v with
  | JObj d => Ret (dict_get_default d k default)
  | _ => Raise AttributeError
  end.

(** [v[k]] for a string key [k]. *)
Definition py_getitem (v : json) (k : string) : py json :=
  match v with
  | JObj d =>
      match dict_get d k with
      | Some x => Ret x
      | None => Raise (KeyError k)
      end
  | _ => Raise TypeError
  end.

(** [len(v)] *)
Definition py_len (v : json) : py Z :=
  match v with
  | JArr l => Ret (Z.of_nat (List.length l))
  | JStr s => Ret (Z.of_nat (List.length (utf8_chars s)))
  | JObj d => Ret (Z.of_nat (dict_len d))
  | _ => Raise TypeError
  end.

(** [l[:stop]] on a sequence: a negative [stop] counts from the end. *)
Definition slice_to {A : Type} (stop : Z) (l : list A) : list A :=
  if 0 <=? stop then firstn (Z.to_nat stop) l
  else firstn (List.length l - Z.to_nat (- stop)) l.

(** [v[1:]]: lists and strings can be sliced; a dict rejects a slice as a
    key and the rest is not subscriptable. Both callers catch what is
    raised here, whatever its class. *)
Definition py_slice_from1 (v : json) : py json :=
  match v with
  | JArr l => Ret (JArr (tl l))
  | JStr s => Ret (JStr (String.concat "" (tl (utf8_chars s))))
  | _ => Raise TypeError
  end.

(** [v[:stop]] *)
Definition py_slice_to (v : json) (stop : Z) : py json :=
  match v with
  | JArr l => Ret (JArr (slice_to stop l))
  | JStr s => Ret (JStr (String.concat "" (slice_to stop (utf8_chars s))))
  | _ => Raise TypeError
  end.

(** [iter(v)]: the items a [for] loop visits. *)
Definition py_iter (v : json) : py (list json) :=
  match v with
  | JArr l => Ret l
  | JStr s => Ret (map JStr (utf8_chars s))
  | JObj d => Ret (map JStr (nodup string_dec (map fst d)))
  | _ => Raise TypeError
  end.

(** ** Python strings as the caller holds them *)

(** A [str] is a sequence of code points, at most 0x10FFFF each. A code
    point from 0xD800 to 0xDFFF is a lone surrogate: a [str] may hold one,
    and it has no UTF-8 encoding. *)
Definition pystr : Type := list N.

Definition is_surrogate (cp : N) : bool :=
  ((55296 <=? cp) && (cp <=? 57343))%N.

(** The UTF-8 bytes of one code point. *)
Definition utf8_char (cp : N) : py string :=
  if (cp <? 128)%N then Ret (String (ascii_of_N cp) EmptyString)
  else if (cp <? 2048)%N then
    Ret (String (ascii_of_N (192 + cp / 64))
           (String (ascii_of_N (128 + cp mod 64)) EmptyString))
  else if is_surrogate cp then Raise UnicodeEncodeError
  else if (cp <? 65536)%N then
    Ret (String (ascii_of_N (224 + cp / 4096))
           (String (ascii_of_N (128 + (cp / 64) mod 64))
              (String (ascii_of_N (128 + cp mod 64)) EmptyString)))
  else
    Ret (String (ascii_of_N (240 + cp / 262144))
           (String (ascii_of_N (128 + (cp / 4096) mod 64))
              (String (ascii_of_N (128 + (cp / 64) mod 64))
                 (String (ascii_of_N (128 + cp mod 64)) EmptyString)))).

(** [s.encode("utf-8")], which [quote_plus] applies to its argument: it
    raises at the first lone surrogate. *)
Fixpoint utf8_encode (s : pystr) : py string :=
  match s with
  | [] => Ret EmptyString
  | cp :: rest =>
      c <- utf8_char cp ;;
      r <- utf8_encode rest ;;
      Ret (c ++ r)
  end.

(** The encoding of an optional [str] argument. *)
Definition utf8_encode_arg (a : option pystr) : py (option string) :=
  match a with
  | None => Ret None
  | Some s => b <- utf8_encode s ;; Ret (Some b)
  end.

(** ** Strings *)

(** [needle in hay] *)
Fixpoint contains (needle hay : string) : bool :=
  if prefix needle hay then true
  else match hay with
       | EmptyString => false
       | String _ rest => contains needle rest
       end.

(** [str(n)] for an [int]. *)
Definition str_int (n : Z) : string :=
  NilZero.string_of_int (Z.to_int n).

(** *** [urllib.parse.quote_plus] and [urlencode] *)

(** The characters [quote] never escapes: letters, digits and [_.-~]. *)
Definition is_unreserved (c : ascii) : bool :=
  let n := N_of_ascii c in
  ((65 <=? n) && (n <=? 90) || (97 <=? n) && (n <=? 122)
   || (48 <=? n) && (n <=? 57)
   || (n =? 95) || (n =? 46) || (n =? 45) || (n =? 126))%N.

Definition hex_digit (n : N) : ascii :=
  if (n <? 10)%N then ascii_of_N (48 + n) else ascii_of_N (55 + n).

(** One byte of the UTF-8 encoding: a space becomes [+], an unreserved
    character stays, every other byte becomes [%XX] in upper-case hex. *)
Definition quote_plus_byte (c : ascii) : string :=
  if Ascii.eqb c " " then "+"
  else if is_unreserved c then String c EmptyString
  else String "%" (String (hex_digit (N_of_ascii c / 16))
                     (String (hex_digit (N_of_ascii c mod 16)) EmptyString)).

Fixpoint quote_plus (s : string) : string :=
  match s with
  | EmptyString => EmptyString
  | String c rest => quote_plus_byte c ++ quote_plus rest
  end.

(** [urlencode] of a dict given as its items, values already passed
    through [str]. *)
Definition urlencode (params : list (string * string)) : string :=
  String.concat "&"
    (map (fun kv => quote_plus (fst kv) ++ "=" ++ quote_plus (snd kv)) params).

(** *** [datetime] and [strftime("%Y-%m-%d")] *)

(** A [datetime.datetime]: the class keeps [1 <= year <= 9999],
    [1 <= month <= 12] and [1 <= day <= 31]. *)
Record datetime : Type := mk_datetime {
  year : Z;
  month : Z;
  day : Z;
  hour : Z;
  minute : Z;
  second : Z;
  microsecond : Z
}.

Definition valid_date (d : datetime) : Prop :=
  1 <= year d <= 9999 /\ 1 <= month d <= 12 /\ 1 <= day d <= 31.

(** The last decimal digit of [n]. *)
Definition digit (n : Z) : ascii :=
  ascii_of_N (48 + Z.to_N (n mod 10)).

(** [%m] and [%d]: two digits, zero-padded. *)
Definition pad2 (n : Z) : string :=
  String (digit (n / 10)) (String (digit n) EmptyString).

(** Four digits, zero-padded. *)
Definition pad4 (n : Z) : string :=
  String (digit (n / 1000)) (String (digit (n / 100)) (pad2 n)).

(** [%Y]: CPython hands the format to the C library, and glibc renders the
    year as its decimal numeral without padding ("999" for the year 999).
    From the year 1000 on the numeral has four digits, as on the platforms
    that pad. *)
Definition strftime_Y (y : Z) : string := str_int y.

Definition strftime_Ymd (d : datetime) : string :=
  strftime_Y (year d) ++ "-" ++ pad2 (month d) ++ "-" ++ pad2 (day d).

Definition is_digit (c : ascii) : bool :=
  ((48 <=? N_of_ascii c) && (N_of_ascii c <=? 57))%N.

(** The shape [YYYY-MM-DD]. *)
Definition is_iso_date (s : string) : bool :=
  match s with
  | String y1 (String y2 (String y3 (String y4 (String d1
      (String m1 (String m2 (String d2
        (String a1 (String a2 EmptyString))))))))) =>
      is_digit y1 && is_digit y2 && is_digit y3 && is_digit y4
      && Ascii.eqb d1 "-" && is_digit m1 && is_digit m2
      && Ascii.eqb d2 "-" && is_digit a1 && is_digit a2
  | _ => false
  end.

(** The number a string of decimal digits denotes. *)
Definition digit_value (c : ascii) : Z := Z.of_N (N_of_ascii c) - 48.

Definition numeral_value (s : string) : Z :=
  fold_left (fun acc c => 10 * acc + digit_value c) (list_ascii_of_string s) 0.

(** ** Requests and results *)

(** A [urllib.request.Request]. [data] is the payload handed to
    [json.dumps], absent for a GET. *)
Record Request : Type := mk_request {
  full_url : string;
  data : option dict;
  headers : list (string * string)
}.

(** Modelled from the spec: [herd_core.types.PostResult] and
    [herd_core.types.ThreadMessage] are imported from another package.
    They are plain value records of three fields each; the constructors
    store what they are given. *)
Module PostResult.
Record t : Type := make {
  message_id : json;
  channel : json;
  timestamp : json
}.
End PostResult.

Module ThreadMessage.
Record t : Type := make {
  author : json;
  text : json;
  timestamp : json
}.
End ThreadMessage.

Record SlackNotifyAdapter : Type := mk_adapter {
  token : string;
  default_channel : string
}.

(** [SlackNotifyAdapter(token)] with the default [default_channel]. *)
Definition new_adapter (token : string) : SlackNotifyAdapter :=
  mk_adapter token "#herd-feed".

(** The default of [search]'s [limit]. *)
Definition default_limit : Z := 50.

(** ** The adapter *)

Section Adapter.

(** Python's [repr] of a value that is not a [str]; an f-string renders a
    float, a list or a dict through it. *)
Variable py_repr : json -> string.

(** The network: what the round trip for a request raises or parses to. *)
Variable urlopen : Request -> transport_error + json.

(** [str(v)], what [f"{v}"] inserts. *)
Definition py_str (v : json) : string :=
  match v with
  | JStr s => s
  | JNull => "None"
  | JBool true => "True"
  | JBool false => "False"
  | JInt z => str_int z
  | _ => py_repr v
  end.

(** [with urlopen(req) as resp: json.loads(resp.read())] inside a [try]. *)
Definition round_trip (req : Request) : py json :=
  match urlopen req with
  | inr result => Ret result
  | inl e => Raise (Transport e)
  end.

(** The request [_api_call] builds. *)
Definition api_request (self : SlackNotifyAdapter) (method : string)
    (payload : dict) : Request :=
  {| full_url := "https://slack.com/api/" ++ method;
     data := Some payload;
     headers := [("Authorization", "Bearer " ++ token self);
                 ("Content-Type", "application/json")] |}.

Definition _api_call (self : SlackNotifyAdapter) (method : string)
    (payload : dict) : py json :=
  match urlopen (api_request self method payload) with
  | inr result => Ret result
  | inl (HTTPError code reason) =>
      Raise (RuntimeError ("HTTP error: " ++ str_int code ++ " " ++ reason))
  | inl (OtherException text) =>
      Raise (RuntimeError ("Request failed: " ++ text))
  end.

(** Lines 64-72 and 104-112: the handling of the parsed response, the
    same in [post] and [post_thread]. *)
Definition post_result (result : json) : py PostResult.t :=
  ok <- py_get result "ok" JNull ;;
  if negb (py_truthy ok) then
    error <- py_get result "error" (JStr "unknown error") ;;
    Raise (RuntimeError ("Slack API error: " ++ py_str error))
  else
    message_id <- py_getitem result "ts" ;;
    channel <- py_getitem result "channel" ;;
    timestamp <- py_getitem result "ts" ;;
    Ret (PostResult.make message_id channel timestamp).

(** The payload [post] builds, lines 50-60. *)
Definition post_payload (self : SlackNotifyAdapter) (message : string)
    (channel username icon : option string) : dict :=
  let channel := arg_or channel (default_channel self) in
  let payload := [("channel", JStr channel); ("text", JStr message)] in
  let payload :=
    match username with
    | Some u => if truthy_str u then dict_set payload "username" (JStr u)
                else payload
    | None => payload
    end in
  match icon with
  | Some i => if truthy_str i then dict_set payload "icon_emoji" (JStr i)
              else payload
  | None => payload
  end.

Definition post (self : SlackNotifyAdapter) (message : string)
    (channel username icon : option string) : py PostResult.t :=
  let payload := post_payload self message channel username icon in
  result <- _api_call self "chat.postMessage" payload ;;
  post_result result.

(** The payload [post_thread] builds, lines 94-100. *)
Definition post_thread_payload (self : SlackNotifyAdapter)
    (thread_id message : string) (channel : option string) : dict :=
  let channel := arg_or channel (default_channel self) in
  [("channel", JStr channel); ("text", JStr message);
   ("thread_ts", JStr thread_id)].

Definition post_thread (self : SlackNotifyAdapter)
    (thread_id message : string) (channel : option string)
    : py PostResult.t :=
  let payload := post_thread_payload self thread_id message channel in
  result <- _api_call self "chat.postMessage" payload ;;
  post_result result.

(** The element of the comprehension of [get_thread_replies]. *)
Definition reply_message (msg : json) : py ThreadMessage.t :=
  author <- py_get msg "user" (JStr "unknown") ;;
  text <- py_get msg "text" (JStr "") ;;
  timestamp <- py_get msg "ts" (JStr "") ;;
  Ret (ThreadMessage.make author text timestamp).

Definition get_thread_replies_request (self : SlackNotifyAdapter)
    (channel thread_id : string) : Request :=
  let params := urlencode [("channel", channel); ("ts", thread_id)] in
  {| full_url := "https://slack.com/api/conversations.replies?" ++ params;
     data := None;
     headers := [("Authorization", "Bearer " ++ token self)] |}.

(** [get_thread_replies] on its arguments once encoded; the call on Python
    strings is [get_thread_replies_call] below. *)
Definition get_thread_replies (self : SlackNotifyAdapter)
    (channel thread_id : string) : py (list ThreadMessage.t) :=
  try_except
    (result <- round_trip (get_thread_replies_request self channel thread_id) ;;
     ok <- py_get result "ok" JNull ;;
     if negb (py_truthy ok) then Ret []
     else
       messages <- py_get result "messages" (JArr []) ;;
       n <- py_len messages ;;
       replies <- (if 1 <? n then py_slice_from1 messages
                   else Ret (JArr [])) ;;
       items <- py_iter replies ;;
       py_map reply_message items)
    (fun _ => Ret []).

(** The query [search] composes, lines 178-184. A [datetime] is always
    truthy, so [if since:] tests for [None] only. *)
Definition search_query (query : string) (channel : option string)
    (since : option datetime) : string :=
  let search_query :=
    match channel with
    | Some c => if truthy_str c then query ++ " in:" ++ c else query
    | None => query
    end in
  match since with
  | Some d => search_query ++ " after:" ++ strftime_Ymd d
  | None => search_query
  end.

(** The items handed to [urlencode], lines 186-188. *)
Definition search_params (query : string) (channel : option string)
    (since : option datetime) (limit : Z) : list (string * string) :=
  [("query", search_query query channel since);
   ("count", str_int (Z.min limit 100))].

Definition search_request (self : SlackNotifyAdapter) (query : string)
    (channel : option string) (since : option datetime) (limit : Z)
    : Request :=
  let params := urlencode (search_params query channel since limit) in
  {| full_url := "https://slack.com/api/search.messages?" ++ params;
     data := None;
     headers := [("Authorization", "Bearer " ++ token self)] |}.

(** The element of the comprehension of [search]: the inner [get] is an
    argument of the outer one and is evaluated first. *)
Definition match_message (msg : json) : py ThreadMessage.t :=
  fallback <- py_get msg "username" (JStr "unknown") ;;
  author <- py_get msg "user" fallback ;;
  text <- py_get msg "text" (JStr "") ;;
  timestamp <- py_get msg "ts" (JStr "") ;;
  Ret (ThreadMessage.make author text timestamp).

(** [search] on its arguments once encoded; the call on Python strings is
    [search_call] below. *)
Definition search (self : SlackNotifyAdapter) (query : string)
    (channel : option string) (since : option datetime) (limit : Z)
    : py (list ThreadMessage.t) :=
  try_except
    (result <- round_trip (search_request self query channel since limit) ;;
     ok <- py_get result "ok" JNull ;;
     if negb (py_truthy ok) then Ret []
     else
       messages <- py_get result "messages" (JObj []) ;;
       matches <- py_get messages "matches" (JArr []) ;;
       shown <- py_slice_to matches limit ;;
       items <- py_iter shown ;;
       py_map match_message items)
    (fun _ => Ret []).

(** The two read operations as the caller invokes them, with Python
    strings. [urlencode] (line 128, lines 186-188) runs before the [try]
    and encodes each string in UTF-8, so a lone surrogate in an argument
    raises [UnicodeEncodeError] to the caller and no request is made. The
    rest of the operation works on the encoded arguments. In [search] the
    string encoded is the composed query; it holds the channel exactly when
    the channel is not empty, and an empty channel encodes without error. *)
Definition get_thread_replies_call (self : SlackNotifyAdapter)
    (channel thread_id : pystr) : py (list ThreadMessage.t) :=
  channel <- utf8_encode channel ;;
  thread_id <- utf8_encode thread_id ;;
  get_thread_replies self channel thread_id.

Definition search_call (self : SlackNotifyAdapter) (query : pystr)
    (channel : option pystr) (since : option datetime) (limit : Z)
    : py (list ThreadMessage.t) :=
  query <- utf8_encode query ;;
  channel <- utf8_encode_arg channel ;;
  search self query channel since limit.

End Adapter.

(** ** Sample calls *)

Definition sample_adapter : SlackNotifyAdapter :=
  mk_adapter "xoxb-test" "#default".

Definition sample_repr (v : json) : string := "<repr>".

(** A network that answers every request the same way. *)
Definition answers (outcome : transport_error + json)
    : Request -> transport_error + json :=
  fun _ => outcome.

Definition invalid_auth : json :=
  JObj [("ok", JBool false); ("error", JStr "invalid_auth")].

Definition posted : json :=
  JObj [("ok", JBool true); ("ts", JStr "1234567890.123456");
        ("channel", JStr "C123456")].

Definition posted_without_ts : json :=
  JObj [("ok", JBool true); ("channel", JStr "C123456")].

Definition message (user body ts : string) : json :=
  JObj [("user", JStr user); ("text", JStr body); ("ts", JStr ts)].

Definition thread_of_three : json :=
  JObj [("ok", JBool true);
        ("messages",
         JArr [message "U123" "Parent message" "1234567890.123456";
               message "U456" "First reply" "1234567890.123457";
               JObj [("text", JStr "Second reply")]])].

Definition three_matches : json :=
  JObj [("ok", JBool true);
        ("messages",
         JObj [("matches",
                JArr [message "U1" "Message 1" "1.1";
                      JObj [("username", JStr "bot"); ("text", JStr "Message 2")];
                      message "U3" "Message 3" "1.3"])])].

Definition valentine : datetime := mk_datetime 2026 2 14 9 30 0 0.

(** The code points of an ASCII literal. *)
Definition ascii_str (s : string) : pystr :=
  map N_of_ascii (list_ascii_of_string s).

(** A [str] that is one lone surrogate, ["\ud800"]. *)
Definition lone_surrogate : pystr := [55296%N].

(** A successful response whose first message is not an object. *)
Definition thread_with_odd_parent : json :=
  JObj [("ok", JBool true); ("messages", JArr [JInt 5; JObj []])].

(** ** Specification-side notions *)

(** An optional argument was passed by the caller. *)
Definition supplied (a : option string) : bool :=
  match a with
  | Some _ => true
  | None => false
  end.

(** The destination resolution of the specification,
    [explicit_destination ?? default_destination]. *)
Definition resolve_spec (explicit : option string) (default : string)
    : string :=
  match explicit with
  | Some c => c
  | None => default
  end.

(** A remote failure: the round trip raised, the body is not an object, or
    its success flag is false. *)
Definition remote_failure (outcome : transport_error + json) : bool :=
  match outcome with
  | inl _ => true
  | inr (JObj d) => negb (py_truthy (dict_get_default d "ok" JNull))
  | inr _ => true
  end.

(** The operation raised the classified error, a [RuntimeError], and its
    message contains [needle]. *)
Definition api_error {A : Type} (r : py A) (needle : string) : Prop :=
  exists msg, r = Raise (RuntimeError msg) /\ contains needle msg = true.

(** The response of [get_thread_replies] is well formed and [l] is its
    mapping: an object with a true success flag whose [messages] is a list
    of one entry, of any shape, followed by objects. *)
Definition replies_answer (outcome : transport_error + json)
    (l : list ThreadMessage.t) : Prop :=
  exists d parent rs,
    outcome = inr (JObj d)
    /\ py_truthy (dict_get_default d "ok" JNull) = true
    /\ dict_get_default d "messages" (JArr []) = JArr (parent :: map JObj rs)
    /\ l = map (fun m =>
                  ThreadMessage.make
                    (dict_get_default m "user" (JStr "unknown"))
                    (dict_get_default m "text" (JStr ""))
                    (dict_get_default m "ts" (JStr ""))) rs.

(** The response of [search] is well formed and [l] is its mapping: an
    object with a true success flag, [messages] an object, [matches] a list
    whose slice up to [limit] holds objects only. *)
Definition search_answer (limit : Z) (outcome : transport_error + json)
    (l : list ThreadMessage.t) : Prop :=
  exists d md all ms,
    outcome = inr (JObj d)
    /\ py_truthy (dict_get_default d "ok" JNull) = true
    /\ dict_get_default d "messages" (JObj []) = JObj md
    /\ dict_get_default md "matches" (JArr []) = JArr all
    /\ slice_to limit all = map JObj ms
    /\ l = map (fun m =>
                  ThreadMessage.make
                    (dict_get_default m "user"
                       (dict_get_default m "username" (JStr "unknown")))
                    (dict_get_default m "text" (JStr ""))
                    (dict_get_default m "ts" (JStr ""))) ms.

(** A reply or a match as a [ThreadMessage], field by field. *)
Definition thread_message (sender : json) (m : dict) : ThreadMessage.t :=
  ThreadMessage.make (dict_get_default m "user" sender)
    (dict_get_default m "text" (JStr ""))
    (dict_get_default m "ts" (JStr "")).

(** The filter clauses of a search query. *)
Definition in_clause (channel : option string) : string :=
  match channel with
  | Some (String a rest) => " in:" ++ String a rest
  | _ => ""
  end.

Definition after_clause (since : option datetime) : string :=
  match since with
  | Some d => " after:" ++ strftime_Ymd d
  | None => ""
  end.

(** A JSON object, that is a Python [dict]. *)
Definition is_object (v : json) : bool :=
  match v with
  | JObj _ => true
  | _ => false
  end.

(** Every character of a string passes a test. *)
Fixpoint string_forall (p : ascii -> bool) (s : string) : bool :=
  match s with
  | EmptyString => true
  | String c rest => p c && string_forall p rest
  end.

(** The alphabet of an encoded component: unreserved characters (the hex
    digits are among them), [+] and [%]. *)
Definition is_url_safe (c : ascii) : bool :=
  is_unreserved c || Ascii.eqb c "+" || Ascii.eqb c "%".

(** Reading one encoded byte back from the head of a string; it serves to
    show that the encoding is unambiguous. *)
Definition hex_value (c : ascii) : N :=
  if is_digit c then (N_of_ascii c - 48)%N else (N_of_ascii c - 55)%N.

Definition unquote_head (s : string) : option (ascii * string) :=
  match s with
  | EmptyString => None
  | String c rest =>
      if Ascii.eqb c "+" then Some (" "%char, rest)
      else if Ascii.eqb c "%" then
        match rest with
        | String h (String l rest') =>
            Some (ascii_of_N (16 * hex_value h + hex_value l), rest')
        | _ => None
        end
      else Some (c, rest)
  end.

(** The value of a header of a request, [req.get_header(name)]. *)
Fixpoint header_get (hs : list (string * string)) (name : string)
    : option string :=
  match hs with
  | [] => None
  | (n, v) :: rest => if String.eqb n name then Some v else header_get rest name
  end.

(** The exceptions a write operation lets out: the classified
    [RuntimeError] with one of its three message prefixes, a [KeyError] for
    [ts] or [channel], or an [AttributeError]. *)
Definition write_exception (e : exn) : Prop :=
  match e with
  | RuntimeError msg =>
      prefix "HTTP error: " msg = true
      \/ prefix "Request failed: " msg = true
      \/ prefix "Slack API error: " msg = true
  | KeyError key => key = "ts" \/ key = "channel"
  | AttributeError => True
  | TypeError => False
  | UnicodeEncodeError => False
  | Transport _ => False
  end.

(** Closes a goal [exists l, Ret [] = Ret l /\ length l <= limit]. *)
Ltac soft_empty := exists []; split; [reflexivity | simpl; lia].

(** ** Sample runs *)

Example post_invalid_auth :
  post sample_repr (answers (inr invalid_auth)) sample_adapter
    "Test message" None None None
  = Raise (RuntimeError "Slack API error: invalid_auth").
Proof. reflexivity. Qed.

Example post_http_401 :
  post sample_repr (answers (inl (HTTPError 401 "Unauthorized")))
    sample_adapter "Test message" None None None
  = Raise (RuntimeError "HTTP error: 401 Unauthorized").
Proof. reflexivity. Qed.

Example post_default_channel :
  dict_get (post_payload sample_adapter "Test message" None None None)
    "channel" = Some (JStr "#default").
Proof. reflexivity. Qed.

Example replies_of_three :
  get_thread_replies (answers (inr thread_of_three)) sample_adapter
    "C123456" "1234567890.123456"
  = Ret [ThreadMessage.make (JStr "U456") (JStr "First reply")
           (JStr "1234567890.123457");
         ThreadMessage.make (JStr "unknown") (JStr "Second reply") (JStr "")].
Proof. reflexivity. Qed.

Example search_url :
  full_url (search_request sample_adapter "test query" (Some "#specific")
              (Some valentine) default_limit)
  = "https://slack.com/api/search.messages?query=test+query+in%3A%23specific+after%3A2026-02-14&count=50".
Proof. reflexivity. Qed.

Example post_thread_feed_channel :
  post_thread_payload (new_adapter "xoxb-test") "1234567890.123456" "Reply"
    None
  = [("channel", JStr "#herd-feed"); ("text", JStr "Reply");
     ("thread_ts", JStr "1234567890.123456")].
Proof. reflexivity. Qed.

Example search_two_of_three :
  search (answers (inr three_matches)) sample_adapter "q" None None 2
  = Ret [ThreadMessage.make (JStr "U1") (JStr "Message 1") (JStr "1.1");
         ThreadMessage.make (JStr "bot") (JStr "Message 2") (JStr "")].
Proof. reflexivity. Qed.

(** ** Strings: containment and encoding *)

Lemma prefix_app (n rest : string) : prefix n (n ++ rest) = true.
Proof.
  induction n as [|a n IH]; simpl.
  - now destruct rest.
  - destruct (ascii_dec a a) as [_|ne]; [exact IH | now elim ne].
Qed.

Lemma prefix_split (n h : string) :
  prefix n h = true -> exists rest, h = n ++ rest.
Proof.
  revert h; induction n as [|a n IH]; intros h H.
  - now exists h.
  - destruct h as [|b h]; simpl in H; [discriminate|].
    destruct (ascii_dec a b) as [->|_]; [|discriminate].
    destruct (IH h H) as [rest ->]. now exists rest.
Qed.

Lemma contains_prefix (n h : string) :
  prefix n h = true -> contains n h = true.
Proof. intros H. destruct h; cbn [contains]; now rewrite H. Qed.

Lemma contains_app (n before rest : string) :
  contains n (before ++ n ++ rest) = true.
Proof.
  induction before as [|c before IH]; cbn [contains append].
  - apply contains_prefix, prefix_app.
  - now destruct (prefix n (String c (before ++ n ++ rest))).
Qed.

(** [contains] is Python's [in]: a match somewhere in the string. *)
Lemma contains_split (n h : string) :
  contains n h = true -> exists before rest, h = before ++ n ++ rest.
Proof.
  induction h as [|c h IH]; cbn [contains].
  - destruct n; [|discriminate]. intros _. now exists "", "".
  - destruct (prefix n (String c h)) eqn:P.
    + intros _. destruct (prefix_split _ _ P) as [rest E].
      exists "", rest. exact E.
    + intros H. destruct (IH H) as (before & rest & ->).
      now exists (String c before), rest.
Qed.

Lemma append_assoc (a b c : string) : (a ++ b) ++ c = a ++ b ++ c.
Proof. induction a as [|x a IH]; simpl; [reflexivity | now rewrite IH]. Qed.

Lemma append_empty_r (a : string) : a ++ "" = a.
Proof. induction a as [|x a IH]; simpl; [reflexivity | now rewrite IH]. Qed.

Lemma contains_tail (n before : string) : contains n (before ++ n) = true.
Proof.
  replace (before ++ n) with (before ++ n ++ "").
  - apply contains_app.
  - f_equal. induction n as [|x n IH]; simpl; [reflexivity | now rewrite IH].
Qed.

Lemma quote_plus_app (a b : string) :
  quote_plus (a ++ b) = quote_plus a ++ quote_plus b.
Proof.
  induction a as [|c a IH]; simpl.
  - reflexivity.
  - now rewrite IH, append_assoc.
Qed.

(** A decimal numeral passes through [quote_plus] unchanged. *)
Lemma quote_plus_uint (u : Decimal.uint) :
  quote_plus (NilEmpty.string_of_uint u) = NilEmpty.string_of_uint u.
Proof.
  induction u as [|u IH|u IH|u IH|u IH|u IH|u IH|u IH|u IH|u IH|u IH];
    [reflexivity | ..];
    cbn [NilEmpty.string_of_uint quote_plus]; rewrite IH; reflexivity.
Qed.

Lemma quote_plus_str_int (n : Z) : quote_plus (str_int n) = str_int n.
Proof.
  unfold str_int. destruct (Z.to_int n) as [u|u];
    cbn [NilZero.string_of_int NilZero.string_of_uint quote_plus].
  - destruct u; try reflexivity; apply quote_plus_uint.
  - change (quote_plus_byte "-") with "-". cbn [append]. f_equal.
    destruct u; try reflexivity; apply quote_plus_uint.
Qed.

(** *** Dates *)

Lemma digit_is_digit (n : Z) : is_digit (digit n) = true.
Proof.
  unfold digit.
  assert (B : 0 <= n mod 10 < 10) by (apply Z.mod_pos_bound; lia).
  set (m := n mod 10) in *.
  assert (C : m = 0 \/ m = 1 \/ m = 2 \/ m = 3 \/ m = 4 \/ m = 5 \/ m = 6
              \/ m = 7 \/ m = 8 \/ m = 9) by lia.
  repeat (destruct C as [-> | C]; [reflexivity|]).
  now rewrite C.
Qed.

Lemma digit_value_digit (n : Z) : digit_value (digit n) = n mod 10.
Proof.
  unfold digit_value, digit.
  assert (B : 0 <= n mod 10 < 10) by (apply Z.mod_pos_bound; lia).
  rewrite N_ascii_embedding by lia. lia.
Qed.

Lemma pad2_value (n : Z) : 0 <= n < 100 -> numeral_value (pad2 n) = n.
Proof.
  intros H. unfold numeral_value, pad2. cbn [list_ascii_of_string fold_left].
  rewrite !digit_value_digit. Z.div_mod_to_equations. lia.
Qed.

Lemma pad4_value (n : Z) : 0 <= n < 10000 -> numeral_value (pad4 n) = n.
Proof.
  intros H. unfold numeral_value, pad4, pad2.
  cbn [list_ascii_of_string fold_left].
  rewrite !digit_value_digit. Z.div_mod_to_equations. lia.
Qed.

(** From the year 1000 on, the numeral of the year is its four digits. *)
Lemma strftime_Y_four_digits (y : Z) :
  1000 <= y <= 9999 -> strftime_Y y = pad4 y.
Proof.
  intros Hy.
  assert (All : forallb (fun a =>
                  forallb (fun b =>
                    let n := 1000 + 100 * Z.of_nat a + Z.of_nat b in
                    String.eqb (strftime_Y n) (pad4 n)) (seq 0 100))
                  (seq 0 90) = true) by (vm_compute; reflexivity).
  rewrite forallb_forall in All.
  pose (a := Z.to_nat ((y - 1000) / 100)).
  pose (b := Z.to_nat ((y - 1000) mod 100)).
  assert (Ha : In a (seq 0 90)).
  { apply in_seq. subst a. split; [lia|].
    assert ((y - 1000) / 100 < 90) by (apply Z.div_lt_upper_bound; lia).
    assert (0 <= (y - 1000) / 100) by (apply Z.div_pos; lia). lia. }
  assert (Hb : In b (seq 0 100)).
  { apply in_seq. subst b.
    pose proof (Z.mod_pos_bound (y - 1000) 100 eq_refl). lia. }
  specialize (All a Ha). rewrite forallb_forall in All.
  specialize (All b Hb). cbv zeta in All.
  replace (1000 + 100 * Z.of_nat a + Z.of_nat b) with y in All.
  - now apply String.eqb_eq.
  - subst a b.
    pose proof (Z.mod_pos_bound (y - 1000) 100 eq_refl).
    assert (0 <= (y - 1000) / 100) by (apply Z.div_pos; lia).
    rewrite !Z2Nat.id by lia.
    pose proof (Z.div_mod (y - 1000) 100). lia.
Qed.

(** The three numerals of a rendered date denote its year, month and day. *)
Lemma strftime_fields (d : datetime) :
  valid_date d -> 1000 <= year d ->
  numeral_value (strftime_Y (year d)) = year d
  /\ numeral_value (pad2 (month d)) = month d
  /\ numeral_value (pad2 (day d)) = day d.
Proof.
  intros (Hy & Hm & Hd) Hy'.
  rewrite strftime_Y_four_digits by lia.
  split; [|split]; [apply pad4_value | apply pad2_value ..]; lia.
Qed.

Lemma strftime_is_iso_date (d : datetime) :
  1000 <= year d <= 9999 -> is_iso_date (strftime_Ymd d) = true.
Proof.
  intros Hy. unfold strftime_Ymd. rewrite (strftime_Y_four_digits _ Hy).
  unfold pad4, pad2. cbn [append is_iso_date].
  now rewrite !digit_is_digit.
Qed.

(** Only the calendar date enters the rendering. *)
Lemma strftime_ignores_time (d : datetime) (h mi s us : Z) :
  strftime_Ymd (mk_datetime (year d) (month d) (day d) h mi s us)
  = strftime_Ymd d.
Proof. reflexivity. Qed.

(** *** Slices *)

Lemma slice_to_nonneg {A : Type} (stop : Z) (l : list A) :
  0 <= stop -> slice_to stop l = firstn (Z.to_nat stop) l.
Proof.
  intros H. unfold slice_to.
  destruct (Z.leb_spec 0 stop) as [_|N]; [reflexivity | lia].
Qed.

Lemma slice_to_bound {A : Type} (stop : Z) (l : list A) :
  0 <= stop -> Z.of_nat (List.length (slice_to stop l)) <= stop.
Proof.
  intros H. rewrite slice_to_nonneg by exact H.
  pose proof (firstn_le_length (Z.to_nat stop) l). lia.
Qed.

(** A slice [l[:stop]] is an initial segment of [l], whatever [stop]. *)
Lemma slice_to_initial {A : Type} (stop : Z) (l : list A) :
  exists rest, l = (slice_to stop l ++ rest)%list.
Proof.
  unfold slice_to. destruct (0 <=? stop).
  - exists (skipn (Z.to_nat stop) l). now rewrite firstn_skipn.
  - exists (skipn (List.length l - Z.to_nat (- stop)) l).
    now rewrite firstn_skipn.
Qed.

(** *** Comprehensions *)

Lemma py_map_length {A B : Type} (f : A -> py B) (l : list A) (ys : list B) :
  py_map f l = Ret ys -> List.length ys = List.length l.
Proof.
  revert ys; induction l as [|x l IH]; intros ys; simpl.
  - intros [= <-]. reflexivity.
  - destruct (f x) as [y|e]; simpl; [|discriminate].
    destruct (py_map f l) as [zs|e]; simpl; [|discriminate].
    intros [= <-]. simpl. f_equal. now apply IH.
Qed.

Lemma py_map_objects {B : Type} (f : json -> py B) (g : dict -> B)
    (ms : list dict) :
  (forall m, f (JObj m) = Ret (g m)) ->
  py_map f (map JObj ms) = Ret (map g ms).
Proof.
  intros Hf. induction ms as [|m ms IH]; simpl.
  - reflexivity.
  - now rewrite Hf, IH.
Qed.

Lemma py_map_strings {B : Type} (f : json -> py B) (xs : list string)
    (ys : list B) :
  (forall s, f (JStr s) = Raise AttributeError) ->
  py_map f (map JStr xs) = Ret ys -> ys = [].
Proof.
  intros Hf. destruct xs as [|x xs]; simpl.
  - now intros [= <-].
  - rewrite Hf. discriminate.
Qed.

Lemma reply_message_object (m : dict) :
  reply_message (JObj m) = Ret (thread_message (JStr "unknown") m).
Proof. reflexivity. Qed.

Lemma match_message_object (m : dict) :
  match_message (JObj m)
  = Ret (thread_message (dict_get_default m "username" (JStr "unknown")) m).
Proof. reflexivity. Qed.

(** *** Handlers *)

(** [except Exception: return []] leaves nothing to propagate. *)
Lemma try_except_returns {A : Type} (m : py (list A)) :
  exists l, try_except m (fun _ => Ret []) = Ret l.
Proof. destruct m as [l|e]; [now exists l | now exists []]. Qed.

(** *** One round trip per operation: the result depends on the network
    only through the answer to the request the operation built. *)

Lemma post_one_request py_repr u1 u2 self message channel username icon :
  let req := api_request self "chat.postMessage"
               (post_payload self message channel username icon) in
  u1 req = u2 req ->
  post py_repr u1 self message channel username icon
  = post py_repr u2 self message channel username icon.
Proof. intros req H. unfold post, _api_call. fold req. now rewrite H. Qed.

Lemma post_thread_one_request py_repr u1 u2 self thread_id message channel :
  let req := api_request self "chat.postMessage"
               (post_thread_payload self thread_id message channel) in
  u1 req = u2 req ->
  post_thread py_repr u1 self thread_id message channel
  = post_thread py_repr u2 self thread_id message channel.
Proof. intros req H. unfold post_thread, _api_call. fold req. now rewrite H. Qed.

Lemma get_thread_replies_one_request u1 u2 self channel thread_id :
  let req := get_thread_replies_request self channel thread_id in
  u1 req = u2 req ->
  get_thread_replies u1 self channel thread_id
  = get_thread_replies u2 self channel thread_id.
Proof.
  intros req H. unfold get_thread_replies, round_trip. fold req. now rewrite H.
Qed.

Lemma search_one_request u1 u2 self query channel since limit :
  let req := search_request self query channel since limit in
  u1 req = u2 req ->
  search u1 self query channel since limit
  = search u2 self query channel since limit.
Proof. intros req H. unfold search, round_trip. fold req. now rewrite H. Qed.

(** ** The write path: [post] and [post_thread] *)

(** What lines 64-66 raise for a response whose success flag is false. *)
Lemma post_result_rejected py_repr (d : dict) :
  py_truthy (dict_get_default d "ok" JNull) = false ->
  post_result py_repr (JObj d)
  = Raise (RuntimeError
             ("Slack API error: "
              ++ py_str py_repr
                   (dict_get_default d "error" (JStr "unknown error")))).
Proof. intros H. unfold post_result. simpl. now rewrite H. Qed.

(** What lines 68-72 do for a response whose success flag is true: the
    three lookups in order. *)
Lemma post_result_accepted py_repr (d : dict) :
  py_truthy (dict_get_default d "ok" JNull) = true ->
  post_result py_repr (JObj d)
  = (message_id <- py_getitem (JObj d) "ts" ;;
     channel <- py_getitem (JObj d) "channel" ;;
     timestamp <- py_getitem (JObj d) "ts" ;;
     Ret (PostResult.make message_id channel timestamp)).
Proof. intros H. unfold post_result. simpl. now rewrite H. Qed.

Lemma post_parsed py_repr urlopen self message channel username icon result :
  urlopen (api_request self "chat.postMessage"
             (post_payload self message channel username icon)) = inr result ->
  post py_repr urlopen self message channel username icon
  = post_result py_repr result.
Proof. intros H. unfold post, _api_call. now rewrite H. Qed.

Lemma post_thread_parsed py_repr urlopen self thread_id message channel result :
  urlopen (api_request self "chat.postMessage"
             (post_thread_payload self thread_id message channel))
  = inr result ->
  post_thread py_repr urlopen self thread_id message channel
  = post_result py_repr result.
Proof. intros H. unfold post_thread, _api_call. now rewrite H. Qed.

Lemma rejected_message py_repr (d : dict) r :
  py_truthy (dict_get_default d "ok" JNull) = false ->
  r = post_result py_repr (JObj d) ->
  (forall code, dict_get d "error" = Some (JStr code) -> api_error r code)
  /\ (dict_get d "error" = None -> api_error r "unknown error").
Proof.
  intros Hok ->. rewrite (post_result_rejected _ _ Hok).
  unfold dict_get_default. split.
  - intros code ->. eexists; split; [reflexivity|]. apply contains_tail.
  - intros ->. eexists; split; [reflexivity|]. apply contains_tail.
Qed.



(** C3. When the parsed response of [post] has a true success flag, the
    returned [PostResult] has [message_id] and [timestamp] both equal to the
    response's [ts] field and [channel] equal to the response's [channel]
    field, whatever destination the caller asked for. *)
Theorem post_result_mirrors_response py_repr urlopen self message channel
    username icon (d : dict) (ts ch : json) :
  urlopen (api_request self "chat.postMessage"
             (post_payload self message channel username icon))
  = inr (JObj d) ->
  py_truthy (dict_get_default d "ok" JNull) = true ->
  dict_get d "ts" = Some ts ->
  dict_get d "channel" = Some ch ->
  exists r,
    post py_repr urlopen self message channel username icon = Ret r
    /\ PostResult.message_id r = ts
    /\ PostResult.timestamp r = ts
    /\ PostResult.channel r = ch.
Proof.
  intros Hresp Hok Hts Hch.
  rewrite (post_parsed _ _ _ _ _ _ _ _ Hresp), (post_result_accepted _ _ Hok).
  cbn [py_getitem bind]. rewrite Hts, Hch.
  eexists; repeat split.
Qed.

Lemma post_result_mirrors_response_witness :
  exists r,
    post sample_repr (answers (inr posted)) sample_adapter "Test message"
      (Some "#test") (Some "TestBot") (Some ":robot:") = Ret r
    /\ PostResult.message_id r = JStr "1234567890.123456"
    /\ PostResult.timestamp r = JStr "1234567890.123456"
    /\ PostResult.channel r = JStr "C123456".
Proof.
  apply (post_result_mirrors_response sample_repr (answers (inr posted))
           sample_adapter "Test message" (Some "#test") (Some "TestBot")
           (Some ":robot:")
           [("ok", JBool true); ("ts", JStr "1234567890.123456");
            ("channel", JStr "C123456")]);
    reflexivity.
Defined.

Lemma api_call_transport_failure urlopen self method payload e :
  urlopen (api_request self method payload) = inl e ->
  _api_call urlopen self method payload
  = Raise (RuntimeError
             match e with
             | HTTPError code reason =>
                 "HTTP error: " ++ str_int code ++ " " ++ reason
             | OtherException text => "Request failed: " ++ text
             end).
Proof. intros H. unfold _api_call. rewrite H. now destruct e. Qed.

(** C9. When the round trip of [post] or [post_thread] fails at the
    transport, the operation raises the classified error: for an HTTP
    failure the message is "HTTP error: <code> <reason>", so it contains the
    status code and the reason phrase; for any other exception it is the
    generic "Request failed: <text of the exception>". *)
Theorem transport_failure_raises_api_error py_repr urlopen self message
    thread_id channel username icon (e : transport_error) :
  let msg := match e with
             | HTTPError code reason =>
                 "HTTP error: " ++ str_int code ++ " " ++ reason
             | OtherException text => "Request failed: " ++ text
             end in
  (urlopen (api_request self "chat.postMessage"
              (post_payload self message channel username icon)) = inl e ->
   post py_repr urlopen self message channel username icon
   = Raise (RuntimeError msg))
  /\ (urlopen (api_request self "chat.postMessage"
                 (post_thread_payload self thread_id message channel))
      = inl e ->
      post_thread py_repr urlopen self thread_id message channel
      = Raise (RuntimeError msg))
  /\ match e with
     | HTTPError code reason =>
         contains (str_int code) msg = true /\ contains reason msg = true
     | OtherException text =>
         prefix "Request failed" msg = true /\ contains text msg = true
     end.
Proof.
  intros msg. repeat split.
  - intros H. unfold post.
    now rewrite (api_call_transport_failure _ _ _ _ _ H).
  - intros H. unfold post_thread.
    now rewrite (api_call_transport_failure _ _ _ _ _ H).
  - subst msg. destruct e as [code reason | text]; split.
    + apply (contains_app (str_int code) "HTTP error: " (" " ++ reason)).
    + rewrite <- !append_assoc. apply contains_tail.
    + reflexivity.
    + apply contains_tail.
Qed.

Lemma transport_failure_raises_api_error_witness :
  post sample_repr (answers (inl (HTTPError 401 "Unauthorized")))
    sample_adapter "Test message" None None None
  = Raise (RuntimeError "HTTP error: 401 Unauthorized")
  /\ post_thread sample_repr (answers (inl (OtherException "Network error")))
       sample_adapter "1234567890.123456" "Reply" None
     = Raise (RuntimeError "Request failed: Network error").
Proof.
  split.
  - apply (transport_failure_raises_api_error sample_repr
             (answers (inl (HTTPError 401 "Unauthorized"))) sample_adapter
             "Test message" "1234567890.123456" None None None
             (HTTPError 401 "Unauthorized")).
    reflexivity.
  - apply (transport_failure_raises_api_error sample_repr
             (answers (inl (OtherException "Network error"))) sample_adapter
             "Reply" "1234567890.123456" None None None
             (OtherException "Network error")).
    reflexivity.
Defined.

(** The success path looks up [ts], then [channel]; the first absent key
    is the one the [KeyError] names. *)
Lemma post_result_missing_key py_repr (d : dict) :
  py_truthy (dict_get_default d "ok" JNull) = true ->
  dict_get d "ts" = None \/ dict_get d "channel" = None ->
  post_result py_repr (JObj d)
  = Raise (KeyError match dict_get d "ts" with
                    | None => "ts"
                    | Some _ => "channel"
                    end).
Proof.
  intros Hok Hmiss. rewrite (post_result_accepted _ _ Hok).
  cbn [py_getitem bind].
  destruct (dict_get d "ts") as [ts|]; cbn [bind].
  - destruct Hmiss as [H|H]; [discriminate | now rewrite H].
  - reflexivity.
Qed.

(** C10. When the parsed response of [post] or [post_thread] has a true
    success flag but no [ts] field or no [channel] field, the operation
    raises a [KeyError] naming the absent key, not the classified error,
    and returns no [PostResult]. *)
Theorem accepted_post_without_ids_raises_key_error py_repr urlopen self
    message thread_id channel username icon (d : dict) :
  py_truthy (dict_get_default d "ok" JNull) = true ->
  dict_get d "ts" = None \/ dict_get d "channel" = None ->
  let key := match dict_get d "ts" with
             | None => "ts"
             | Some _ => "channel"
             end in
  (urlopen (api_request self "chat.postMessage"
              (post_payload self message channel username icon))
   = inr (JObj d) ->
   post py_repr urlopen self message channel username icon
   = Raise (KeyError key))
  /\ (urlopen (api_request self "chat.postMessage"
                 (post_thread_payload self thread_id message channel))
      = inr (JObj d) ->
      post_thread py_repr urlopen self thread_id message channel
      = Raise (KeyError key))
  /\ (forall msg, KeyError key <> RuntimeError msg).
Proof.
  intros Hok Hmiss key. repeat split; try discriminate.
  - intros H. rewrite (post_parsed _ _ _ _ _ _ _ _ H).
    now apply post_result_missing_key.
  - intros H. rewrite (post_thread_parsed _ _ _ _ _ _ _ H).
    now apply post_result_missing_key.
Qed.

Lemma accepted_post_without_ids_raises_key_error_witness :
  post sample_repr (answers (inr posted_without_ts)) sample_adapter
    "Test message" None None None = Raise (KeyError "ts")
  /\ post_thread sample_repr
       (answers (inr (JObj [("ok", JBool true); ("ts", JStr "1.2")])))
       sample_adapter "1234567890.123456" "Reply" None
     = Raise (KeyError "channel").
Proof.
  split.
  - apply (accepted_post_without_ids_raises_key_error sample_repr
             (answers (inr posted_without_ts)) sample_adapter "Test message"
             "1234567890.123456" None None None
             [("ok", JBool true); ("channel", JStr "C123456")]);
      [reflexivity | left; reflexivity | reflexivity].
  - apply (accepted_post_without_ids_raises_key_error sample_repr
             (answers (inr (JObj [("ok", JBool true); ("ts", JStr "1.2")])))
             sample_adapter "Reply" "1234567890.123456" None None None
             [("ok", JBool true); ("ts", JStr "1.2")]);
      [reflexivity | right; reflexivity | reflexivity].
Defined.

(** ** The read path: [get_thread_replies] and [search] *)

Lemma py_map_only_objects {B : Type} (f : json -> py B) (items : list json)
    (ys : list B) :
  (forall v, (exists m, v = JObj m) \/ f v = Raise AttributeError) ->
  py_map f items = Ret ys -> exists ms, items = map JObj ms.
Proof.
  intros Hf. revert ys. induction items as [|v items IH]; intros ys; simpl.
  - intros _. now exists [].
  - destruct (Hf v) as [[m ->] | E].
    + destruct (f (JObj m)) as [y|e]; simpl; [|discriminate].
      destruct (py_map f items) as [zs|e] eqn:Hzs; simpl; [|discriminate].
      intros _. destruct (IH zs eq_refl) as [ms ->]. now exists (m :: ms).
    + rewrite E. discriminate.
Qed.

Lemma reply_message_cases (v : json) :
  (exists m, v = JObj m) \/ reply_message v = Raise AttributeError.
Proof. destruct v; try (now right); left; eauto. Qed.

Lemma match_message_cases (v : json) :
  (exists m, v = JObj m) \/ match_message v = Raise AttributeError.
Proof. destruct v; try (now right); left; eauto. Qed.

(** The body of [get_thread_replies] after the success test, as a function
    of the [messages] value. *)
Lemma replies_of_list (msgs : list json) (replies : list dict) :
  tl msgs = map JObj replies ->
  (n <- py_len (JArr msgs) ;;
   rest <- (if 1 <? n then py_slice_from1 (JArr msgs) else Ret (JArr [])) ;;
   items <- py_iter rest ;;
   py_map reply_message items)
  = Ret (map (thread_message (JStr "unknown")) replies).
Proof.
  intros Htl. cbn [py_len bind].
  destruct (Z.ltb_spec 1 (Z.of_nat (List.length msgs))) as [Long|Short];
    cbn [py_slice_from1 bind py_iter].
  - rewrite Htl. apply py_map_objects, reply_message_object.
  - destruct msgs as [|parent [|m rest]]; simpl in *; try lia;
      destruct replies; try discriminate; reflexivity.
Qed.

(** C5. When the response of [get_thread_replies] succeeds with a list of
    N messages, the result is the messages after the first, in their order,
    so N-1 of them (none for N = 1); each is a [ThreadMessage] whose [text]
    is the message's [text] field, the empty string when absent, and whose
    [author] is its [user] field, "unknown" when absent. *)
Theorem replies_drop_parent_and_map_rest urlopen self channel thread_id
    (d : dict) (msgs : list json) (replies : list dict) :
  urlopen (get_thread_replies_request self channel thread_id)
  = inr (JObj d) ->
  py_truthy (dict_get_default d "ok" JNull) = true ->
  dict_get d "messages" = Some (JArr msgs) ->
  tl msgs = map JObj replies ->
  get_thread_replies urlopen self channel thread_id
  = Ret (map (fun m =>
                ThreadMessage.make
                  (dict_get_default m "user" (JStr "unknown"))
                  (dict_get_default m "text" (JStr ""))
                  (dict_get_default m "ts" (JStr ""))) replies)
  /\ List.length replies = (List.length msgs - 1)%nat.
Proof.
  intros Hresp Hok Hmsgs Htl.
  assert (E : dict_get_default d "messages" (JArr []) = JArr msgs)
    by (unfold dict_get_default; now rewrite Hmsgs).
  split.
  - unfold get_thread_replies, round_trip. rewrite Hresp.
    cbn [bind py_get]. rewrite Hok, E. cbn [negb].
    now rewrite (replies_of_list msgs replies Htl).
  - assert (L := f_equal (@List.length json) Htl).
    rewrite length_map in L. unfold dict in *.
    destruct msgs; simpl in *; lia.
Qed.

Lemma replies_drop_parent_and_map_rest_witness :
  get_thread_replies (answers (inr thread_of_three)) sample_adapter
    "C123456" "1234567890.123456"
  = Ret [ThreadMessage.make (JStr "U456") (JStr "First reply")
           (JStr "1234567890.123457");
         ThreadMessage.make (JStr "unknown") (JStr "Second reply") (JStr "")]
  /\ 2%nat = (3 - 1)%nat.
Proof.
  apply (replies_drop_parent_and_map_rest (answers (inr thread_of_three))
           sample_adapter "C123456" "1234567890.123456"
           [("ok", JBool true);
            ("messages",
             JArr [message "U123" "Parent message" "1234567890.123456";
                   message "U456" "First reply" "1234567890.123457";
                   JObj [("text", JStr "Second reply")]])]
           [message "U123" "Parent message" "1234567890.123456";
            message "U456" "First reply" "1234567890.123457";
            JObj [("text", JStr "Second reply")]]
           [[("user", JStr "U456"); ("text", JStr "First reply");
             ("ts", JStr "1234567890.123457")];
            [("text", JStr "Second reply")]]);
    reflexivity.
Defined.

(** A thread of one message, the parent alone, has no replies. *)
Lemma replies_of_parent_alone urlopen self channel thread_id (d : dict)
    (parent : json) :
  urlopen (get_thread_replies_request self channel thread_id)
  = inr (JObj d) ->
  py_truthy (dict_get_default d "ok" JNull) = true ->
  dict_get d "messages" = Some (JArr [parent]) ->
  get_thread_replies urlopen self channel thread_id = Ret [].
Proof.
  intros Hresp Hok Hmsgs.
  assert (E : dict_get_default d "messages" (JArr []) = JArr [parent])
    by (unfold dict_get_default; now rewrite Hmsgs).
  unfold get_thread_replies, round_trip. rewrite Hresp.
  cbn [bind py_get]. now rewrite Hok, E.
Qed.

(** On the encoded arguments both read operations return for every remote
    outcome, and return the empty list when the round trip raises, when the
    body is not an object and when its success flag is false. *)
Lemma read_bodies_fail_soft urlopen self channel thread_id query
    destination since limit :
  (exists l, get_thread_replies urlopen self channel thread_id = Ret l)
  /\ (exists l, search urlopen self query destination since limit = Ret l)
  /\ (remote_failure
        (urlopen (get_thread_replies_request self channel thread_id)) = true ->
      get_thread_replies urlopen self channel thread_id = Ret [])
  /\ (remote_failure
        (urlopen (search_request self query destination since limit)) = true ->
      search urlopen self query destination since limit = Ret []).
Proof.
  split; [apply try_except_returns|].
  split; [apply try_except_returns|].
  split; intros Hfail.
  - unfold get_thread_replies, round_trip.
    destruct (urlopen _) as [e|[| | | | | |d]]; try reflexivity.
    cbn [remote_failure] in Hfail. cbn [bind py_get]. now rewrite Hfail.
  - unfold search, round_trip.
    destruct (urlopen _) as [e|[| | | | | |d]]; try reflexivity.
    cbn [remote_failure] in Hfail. cbn [bind py_get]. now rewrite Hfail.
Qed.

(** A non-empty result of [get_thread_replies] comes only from a response
    that is an object with a true success flag whose [messages] is a list
    of a parent followed by objects: every other shape of the response,
    however malformed, gives the empty list. *)
Lemma nonempty_replies_need_wellformed urlopen self channel thread_id x xs :
  get_thread_replies urlopen self channel thread_id = Ret (x :: xs) ->
  exists d parent rs,
    urlopen (get_thread_replies_request self channel thread_id)
    = inr (JObj d)
    /\ py_truthy (dict_get_default d "ok" JNull) = true
    /\ dict_get_default d "messages" (JArr []) = JArr (parent :: map JObj rs).
Proof.
  unfold get_thread_replies, round_trip.
  destruct (urlopen _) as [e|[| | | | | |d]]; try discriminate.
  cbn [bind py_get].
  destruct (py_truthy (dict_get_default d "ok" JNull)) eqn:Hok;
    cbn [negb]; [|discriminate].
  destruct (dict_get_default d "messages" (JArr [])) as [| | | |s|l|o] eqn:Hm;
    try discriminate; cbn [py_len bind].
  - destruct (1 <? _); cbn [py_slice_from1 bind py_iter].
    + destruct (py_map _ _) as [ys|e] eqn:M; cbn [try_except];
        [|discriminate].
      apply py_map_strings in M; [now subst | reflexivity].
    + discriminate.
  - destruct (1 <? _); cbn [py_slice_from1 bind py_iter]; [|discriminate].
    destruct (py_map _ _) as [ys|e] eqn:M; cbn [try_except]; [|discriminate].
    intros [= ->].
    destruct (py_map_only_objects _ _ _ reply_message_cases M) as [ms Hms].
    destruct l as [|parent rest]; [discriminate|]. simpl in Hms. subst rest.
    now exists d, parent, ms.
  - destruct (1 <? _); discriminate.
Qed.

(** Likewise for [search]: a non-empty result needs an object with a true
    success flag whose [messages] is an object whose [matches] is a list
    with objects in the slice taken. *)
Lemma nonempty_search_needs_wellformed urlopen self query channel since
    limit x xs :
  search urlopen self query channel since limit = Ret (x :: xs) ->
  exists d md l ms,
    urlopen (search_request self query channel since limit) = inr (JObj d)
    /\ py_truthy (dict_get_default d "ok" JNull) = true
    /\ dict_get_default d "messages" (JObj []) = JObj md
    /\ dict_get_default md "matches" (JArr []) = JArr l
    /\ slice_to limit l = map JObj ms.
Proof.
  unfold search, round_trip.
  destruct (urlopen _) as [e|[| | | | | |d]]; try discriminate.
  cbn [bind py_get].
  destruct (py_truthy (dict_get_default d "ok" JNull)) eqn:Hok;
    cbn [negb]; [|discriminate].
  destruct (dict_get_default d "messages" (JObj [])) as [| | | | | |md] eqn:Hm;
    try discriminate.
  cbn [bind py_get].
  destruct (dict_get_default md "matches" (JArr [])) as [| | | |s|l|o] eqn:Hl;
    try discriminate; cbn [py_slice_to bind py_iter].
  - destruct (py_map _ _) as [ys|e] eqn:M; cbn [try_except]; [|discriminate].
    apply py_map_strings in M; [now subst | reflexivity].
  - destruct (py_map _ _) as [ys|e] eqn:M; cbn [try_except]; [|discriminate].
    intros _.
    destruct (py_map_only_objects _ _ _ match_message_cases M) as [ms Hms].
    now exists d, md, l, ms.
Qed.

(** *** [search]: the count parameter and the limit *)

Lemma search_url_shape self query channel since limit :
  full_url (search_request self query channel since limit)
  = "https://slack.com/api/search.messages?query="
    ++ quote_plus (search_query query channel since)
    ++ "&count=" ++ str_int (Z.min limit 100).
Proof.
  unfold search_request, search_params, urlencode.
  cbn [full_url map String.concat fst snd quote_plus quote_plus_byte].
  rewrite quote_plus_str_int.
  change (quote_plus "query") with "query".
  change (quote_plus "count") with "count".
  now rewrite !append_assoc.
Qed.

(** Whatever the remote answers, a non-negative [limit] bounds the number
    of results. *)
Lemma search_at_most_limit urlopen self query channel since limit :
  0 <= limit ->
  exists shown,
    search urlopen self query channel since limit = Ret shown
    /\ Z.of_nat (List.length shown) <= limit.
Proof.
  intros Hlimit. unfold search, round_trip.
  destruct (urlopen _) as [e|[| | | | | |d]]; try soft_empty.
  cbn [bind py_get].
  destruct (py_truthy (dict_get_default d "ok" JNull)); cbn [negb];
    [|soft_empty].
  destruct (dict_get_default d "messages" (JObj [])) as [| | | | | |md];
    try soft_empty.
  cbn [bind py_get].
  destruct (dict_get_default md "matches" (JArr [])) as [| | | |s|l|o];
    try soft_empty; cbn [py_slice_to bind py_iter].
  - destruct (py_map _ _) as [ys|e] eqn:M; cbn [try_except]; [|soft_empty].
    apply py_map_strings in M; [subst ys; soft_empty | reflexivity].
  - destruct (py_map _ _) as [ys|e] eqn:M; cbn [try_except]; [|soft_empty].
    exists ys. split; [reflexivity|].
    rewrite (py_map_length _ _ _ M). now apply slice_to_bound.
Qed.

(** On a successful response whose matches are objects, [search] maps the
    slice [matches[:limit]]. *)
Lemma search_maps_slice urlopen self query channel since limit
    (d md : dict) (ms : list dict) :
  urlopen (search_request self query channel since limit) = inr (JObj d) ->
  py_truthy (dict_get_default d "ok" JNull) = true ->
  dict_get d "messages" = Some (JObj md) ->
  dict_get md "matches" = Some (JArr (map JObj ms)) ->
  search urlopen self query channel since limit
  = Ret (map (fun m =>
                thread_message (dict_get_default m "username" (JStr "unknown"))
                  m)
           (slice_to limit ms)).
Proof.
  intros Hresp Hok Hmd Hms.
  assert (E1 : dict_get_default d "messages" (JObj []) = JObj md)
    by (unfold dict_get_default; now rewrite Hmd).
  assert (E2 : dict_get_default md "matches" (JArr []) = JArr (map JObj ms))
    by (unfold dict_get_default; now rewrite Hms).
  unfold search, round_trip. rewrite Hresp.
  cbn [bind py_get]. rewrite Hok, E1. cbn [negb bind py_get]. rewrite E2.
  cbn [py_slice_to bind py_iter].
  assert (S : slice_to limit (map JObj ms) = map JObj (slice_to limit ms)).
  { unfold slice_to. rewrite length_map.
    destruct (0 <=? limit); apply firstn_map. }
  rewrite S, (py_map_objects _ _ _ match_message_object). reflexivity.
Qed.

(** C6 (as the code has it). For every [limit] the [count] parameter of the
    request is the lesser of [limit] and 100. For a [limit] that is not
    negative, the result never has more than [limit] entries, whatever the
    remote answers, and on a successful response it is the first [limit]
    matches (all of them when there are fewer), mapped in the response's
    order. *)
Theorem search_count_and_limit urlopen self query channel since limit :
  full_url (search_request self query channel since limit)
  = "https://slack.com/api/search.messages?query="
    ++ quote_plus (search_query query channel since)
    ++ "&count=" ++ str_int (Z.min limit 100)
  /\ (0 <= limit ->
      exists shown,
        search urlopen self query channel since limit = Ret shown
        /\ Z.of_nat (List.length shown) <= limit)
  /\ (forall (d md : dict) (ms : list dict),
        0 <= limit ->
        urlopen (search_request self query channel since limit)
        = inr (JObj d) ->
        py_truthy (dict_get_default d "ok" JNull) = true ->
        dict_get d "messages" = Some (JObj md) ->
        dict_get md "matches" = Some (JArr (map JObj ms)) ->
        search urlopen self query channel since limit
        = Ret (map (fun m =>
                      ThreadMessage.make
                        (dict_get_default m "user"
                           (dict_get_default m "username" (JStr "unknown")))
                        (dict_get_default m "text" (JStr ""))
                        (dict_get_default m "ts" (JStr "")))
                 (firstn (Z.to_nat limit) ms))).
Proof.
  split; [apply search_url_shape|].
  split; [apply search_at_most_limit|].
  intros d md ms Hlimit Hresp Hok Hmd Hms.
  rewrite (search_maps_slice _ _ _ _ _ _ _ _ _ Hresp Hok Hmd Hms).
  now rewrite slice_to_nonneg.
Qed.

Lemma search_count_and_limit_witness :
  search (answers (inr three_matches)) sample_adapter "test query" None
    None 2
  = Ret [ThreadMessage.make (JStr "U1") (JStr "Message 1") (JStr "1.1");
         ThreadMessage.make (JStr "bot") (JStr "Message 2") (JStr "")].
Proof.
  destruct (search_count_and_limit (answers (inr three_matches))
              sample_adapter "test query" None None 2) as (_ & _ & Hmap).
  apply (Hmap
           [("ok", JBool true);
            ("messages",
             JObj [("matches",
                    JArr [message "U1" "Message 1" "1.1";
                          JObj [("username", JStr "bot");
                                ("text", JStr "Message 2")];
                          message "U3" "Message 3" "1.3"])])]
           [("matches",
             JArr [message "U1" "Message 1" "1.1";
                   JObj [("username", JStr "bot"); ("text", JStr "Message 2")];
                   message "U3" "Message 3" "1.3"])]
           [[("user", JStr "U1"); ("text", JStr "Message 1");
             ("ts", JStr "1.1")];
            [("username", JStr "bot"); ("text", JStr "Message 2")];
            [("user", JStr "U3"); ("text", JStr "Message 3");
             ("ts", JStr "1.3")]]);
    [lia | reflexivity..].
Defined.

(** C6 as stated fails for a negative [limit]: [matches[:-1]] drops the
    last match only, so two results come back for a limit of -1. *)
Lemma search_negative_limit_counterexample :
  exists shown,
    search (answers (inr three_matches)) sample_adapter "test query" None
      None (-1) = Ret shown
    /\ ~ (Z.of_nat (List.length shown) <= -1).
Proof.
  eexists. split; [reflexivity|]. simpl. lia.
Qed.

(** ** Outbound requests: destination, payload keys and query clauses *)

(** The payload [post] hands to [_api_call] is the body of its request. *)
Lemma post_request_data self message channel username icon :
  data (api_request self "chat.postMessage"
          (post_payload self message channel username icon))
  = Some (post_payload self message channel username icon).
Proof. reflexivity. Qed.

(** The composed query is the caller's query followed by the two optional
    clauses. *)
Lemma search_query_split query channel since :
  search_query query channel since
  = query ++ in_clause channel ++ after_clause since.
Proof.
  destruct channel as [[|a c]|], since as [d|];
    unfold search_query, in_clause, after_clause, truthy_str;
    rewrite ?append_assoc, ?append_empty_r; reflexivity.
Qed.

(** C4 as stated fails twice: an explicit destination that is the empty
    string is replaced by the default in the payload of [post], and [search]
    without a destination adds no restriction at all, it does not fall back
    to the default destination. *)
Lemma destination_resolution_counterexample :
  dict_get (post_payload sample_adapter "Test message" (Some "") None None)
    "channel"
  <> Some (JStr (resolve_spec (Some "") (default_channel sample_adapter)))
  /\ contains ("in:" ++ resolve_spec None (default_channel sample_adapter))
       (search_query "test query" None None) = false.
Proof. split; [discriminate | reflexivity]. Qed.

(** C4 (as the code has it). [post] and [post_thread] put in the payload
    the explicit destination, verbatim, when one is supplied and is not the
    empty string, and the configured default otherwise. [search] restricts
    the query to the explicit destination, verbatim, when one is supplied
    and is not the empty string, and otherwise adds no destination clause;
    its request never depends on the default destination. *)
Theorem destination_resolution self self' message thread_id query channel
    username icon since limit :
  (forall c, channel = Some c -> c <> "" ->
     dict_get (post_payload self message channel username icon) "channel"
     = Some (JStr c)
     /\ dict_get (post_thread_payload self thread_id message channel)
          "channel" = Some (JStr c)
     /\ search_query query channel since
        = query ++ " in:" ++ c ++ after_clause since)
  /\ (channel = None \/ channel = Some "" ->
      dict_get (post_payload self message channel username icon) "channel"
      = Some (JStr (default_channel self))
      /\ dict_get (post_thread_payload self thread_id message channel)
           "channel" = Some (JStr (default_channel self))
      /\ search_query query channel since = query ++ after_clause since)
  /\ (token self = token self' ->
      search_request self query channel since limit
      = search_request self' query channel since limit).
Proof.
  repeat split.
  - destruct c as [|a c]; [congruence|]. subst channel.
    destruct username as [[|? ?]|], icon as [[|? ?]|]; reflexivity.
  - destruct c as [|a c]; [congruence|]. now subst channel.
  - destruct c as [|a c]; [congruence|]. subst channel.
    now rewrite search_query_split.
  - destruct H as [-> | ->];
      destruct username as [[|? ?]|], icon as [[|? ?]|]; reflexivity.
  - now destruct H as [-> | ->].
  - rewrite search_query_split. now destruct H as [-> | ->].
  - intros Htok. unfold search_request. now rewrite Htok.
Qed.

Lemma destination_resolution_witness :
  dict_get (post_payload sample_adapter "Test message" (Some "#test")
              (Some "TestBot") None) "channel" = Some (JStr "#test")
  /\ dict_get (post_thread_payload sample_adapter "1234567890.123456"
                 "Reply" None) "channel" = Some (JStr "#default")
  /\ search_request sample_adapter "test query" None None 50
     = search_request (mk_adapter "xoxb-test" "#elsewhere") "test query"
         None None 50.
Proof.
  split; [|split].
  - destruct (destination_resolution sample_adapter sample_adapter
                "Test message" "1234567890.123456" "test query"
                (Some "#test") (Some "TestBot") None None 50)
      as (Hexplicit & _ & _).
    apply (Hexplicit "#test"); [reflexivity | discriminate].
  - destruct (destination_resolution sample_adapter sample_adapter "Reply"
                "1234567890.123456" "test query" None None None None 50)
      as (_ & Hdefault & _).
    apply Hdefault. left; reflexivity.
  - destruct (destination_resolution sample_adapter
                (mk_adapter "xoxb-test" "#elsewhere") "Reply"
                "1234567890.123456" "test query" None None None None 50)
      as (_ & _ & Hsearch).
    apply Hsearch. reflexivity.
Defined.

(** C7 as stated fails when a presentation override is supplied as the
    empty string: the argument was passed, yet its key is left out. *)
Lemma post_payload_keys_counterexample :
  dict_mem (post_payload sample_adapter "Test message" None (Some "")
              (Some ""))
    "username" <> supplied (Some "")
  /\ dict_mem (post_payload sample_adapter "Test message" None (Some "")
                 (Some ""))
       "icon_emoji" <> supplied (Some "").
Proof. split; discriminate. Qed.

(** C7 (as the code has it). The payload of [post] always has [channel] and
    [text]; it has [username] exactly when the caller supplied a display
    name that is not the empty string, and then with that name as value;
    likewise [icon_emoji] for the icon. A key of an override that is left
    out is absent: it is never present with a null or an empty value. *)
Theorem post_payload_keys self message channel username icon :
  let payload := post_payload self message channel username icon in
  dict_get payload "channel"
  = Some (JStr (arg_or channel (default_channel self)))
  /\ dict_get payload "text" = Some (JStr message)
  /\ dict_mem payload "username" = truthy_arg username
  /\ dict_mem payload "icon_emoji" = truthy_arg icon
  /\ (forall v, dict_get payload "username" = Some v ->
        exists u, username = Some u /\ v = JStr u /\ u <> "")
  /\ (forall v, dict_get payload "icon_emoji" = Some v ->
        exists i, icon = Some i /\ v = JStr i /\ i <> "")
  /\ (username = None -> dict_get payload "username" = None)
  /\ (icon = None -> dict_get payload "icon_emoji" = None).
Proof.
  destruct username as [[|a u]|], icon as [[|b i]|]; cbv zeta;
    repeat split; try reflexivity; try discriminate;
    intros v [= <-]; eexists; repeat split; discriminate.
Qed.

Lemma post_payload_keys_witness :
  exists u,
    Some "TestBot" = Some u /\ JStr "TestBot" = JStr u /\ u <> "".
Proof.
  destruct (post_payload_keys sample_adapter "Test message" (Some "#test")
              (Some "TestBot") (Some ":robot:"))
    as (_ & _ & _ & _ & Hname & _).
  apply Hname. reflexivity.
Defined.




(** ** Further properties of the adapter *)

(** *** The encoding of request parameters *)

Lemma string_forall_app (p : ascii -> bool) (a b : string) :
  string_forall p (a ++ b) = string_forall p a && string_forall p b.
Proof.
  induction a as [|c a IH]; simpl; [reflexivity|].
  now rewrite IH, andb_assoc.
Qed.

Lemma quote_plus_byte_safe (c : ascii) :
  string_forall is_url_safe (quote_plus_byte c) = true.
Proof. destruct c as [[] [] [] [] [] [] [] []]; reflexivity. Qed.

Lemma unquote_head_quote (c : ascii) (rest : string) :
  unquote_head (quote_plus_byte c ++ rest) = Some (c, rest).
Proof. destruct c as [[] [] [] [] [] [] [] []]; reflexivity. Qed.

Lemma quote_plus_is_url_safe_aux (s : string) :
  string_forall is_url_safe (quote_plus s) = true.
Proof.
  induction s as [|c s IH]; simpl; [reflexivity|].
  now rewrite string_forall_app, quote_plus_byte_safe, IH.
Qed.

(** X1. An encoded component consists of unreserved characters, [+] and
    [%] only: whatever the input, it holds no space, [&], [=], [#] or [?]. *)
Theorem quote_plus_is_url_safe (s : string) :
  string_forall is_url_safe (quote_plus s) = true
  /\ contains " " (quote_plus s) = false
  /\ contains "&" (quote_plus s) = false
  /\ contains "=" (quote_plus s) = false
  /\ contains "#" (quote_plus s) = false
  /\ contains "?" (quote_plus s) = false.
Proof.
  assert (Safe := quote_plus_is_url_safe_aux s).
  assert (No : forall x, is_url_safe x = false ->
                 forall t, string_forall is_url_safe t = true ->
                   contains (String x "") t = false).
  { intros x Hx t. induction t as [|c t IH]; cbn [contains string_forall].
    - reflexivity.
    - intros Ht. apply andb_true_iff in Ht as [Hc Ht].
      cbn [prefix]. destruct (ascii_dec x c) as [->|_]; [congruence|].
      now apply IH. }
  split; [exact Safe|].
  repeat split; apply No; trivial.
Qed.

Lemma quote_plus_injective (s1 s2 : string) :
  quote_plus s1 = quote_plus s2 -> s1 = s2.
Proof.
  revert s2. induction s1 as [|c1 s1 IH]; intros [|c2 s2] H;
    cbn [quote_plus] in H.
  - reflexivity.
  - apply (f_equal unquote_head) in H.
    rewrite unquote_head_quote in H. discriminate.
  - apply (f_equal unquote_head) in H.
    rewrite unquote_head_quote in H. discriminate.
  - apply (f_equal unquote_head) in H.
    rewrite !unquote_head_quote in H. injection H as -> H.
    f_equal. now apply IH.
Qed.

Lemma append_cancel_l (p a b : string) : p ++ a = p ++ b -> a = b.
Proof.
  induction p as [|c p IH]; cbn [append]; [trivial|].
  intros [= H]. now apply IH.
Qed.

(** Two strings over an alphabet, each followed by a separator outside
    the alphabet, split at the same place. *)
Lemma split_at_separator (p : ascii -> bool) (x : ascii)
    (a a' b b' : string) :
  p x = false ->
  string_forall p a = true -> string_forall p a' = true ->
  a ++ String x b = a' ++ String x b' -> a = a' /\ b = b'.
Proof.
  intros Hx. revert a'.
  induction a as [|c a IH]; intros [|c' a'] Ha Ha' H;
    cbn [append string_forall] in *.
  - now injection H as ->.
  - injection H as <- _. apply andb_true_iff in Ha' as [Hc _]. congruence.
  - injection H as -> _. apply andb_true_iff in Ha as [Hc _]. congruence.
  - injection H as -> H.
    apply andb_true_iff in Ha as [_ Ha].
    apply andb_true_iff in Ha' as [_ Ha'].
    destruct (IH a' Ha Ha' H) as [-> ->]. now split.
Qed.

(** X2. The encoding of parameters is unambiguous. [quote_plus] is
    injective; the URL of [get_thread_replies] determines the channel and
    the thread id, and the URL of [search] determines the composed query:
    no value of a parameter can pass for another parameter. *)
Theorem request_urls_determine_parameters self self' :
  (forall s1 s2, quote_plus s1 = quote_plus s2 -> s1 = s2)
  /\ (forall channel thread_id channel' thread_id',
        full_url (get_thread_replies_request self channel thread_id)
        = full_url (get_thread_replies_request self' channel' thread_id') ->
        channel = channel' /\ thread_id = thread_id')
  /\ (forall query channel since limit query' channel' since' limit',
        full_url (search_request self query channel since limit)
        = full_url (search_request self' query' channel' since' limit') ->
        search_query query channel since
        = search_query query' channel' since').
Proof.
  split; [exact quote_plus_injective|]. split.
  - intros c t c' t' H.
    unfold get_thread_replies_request, urlencode in H.
    cbn [full_url map String.concat fst snd] in H.
    change (quote_plus "channel") with "channel" in H.
    change (quote_plus "ts") with "ts" in H.
    apply append_cancel_l in H. rewrite !append_assoc in H.
    apply (append_cancel_l "channel=") in H.
    change ("&" ++ "ts" ++ "=" ++ quote_plus t)
      with (String "&" ("ts=" ++ quote_plus t)) in H.
    change ("&" ++ "ts" ++ "=" ++ quote_plus t')
      with (String "&" ("ts=" ++ quote_plus t')) in H.
    apply (split_at_separator is_url_safe) in H;
      [| reflexivity | apply quote_plus_is_url_safe_aux ..].
    destruct H as [Hc Ht]. apply append_cancel_l in Ht.
    split; now apply quote_plus_injective.
  - intros q c s l q' c' s' l' H.
    rewrite !search_url_shape in H.
    apply append_cancel_l in H.
    change ("&count=" ++ str_int (Z.min l 100))
      with (String "&" ("count=" ++ str_int (Z.min l 100))) in H.
    change ("&count=" ++ str_int (Z.min l' 100))
      with (String "&" ("count=" ++ str_int (Z.min l' 100))) in H.
    apply (split_at_separator is_url_safe) in H;
      [| reflexivity | apply quote_plus_is_url_safe_aux ..].
    now apply quote_plus_injective.
Qed.

Lemma request_urls_determine_parameters_witness :
  "C123456" = "C123456" /\ "1234567890.123456" = "1234567890.123456".
Proof.
  destruct (request_urls_determine_parameters sample_adapter sample_adapter)
    as (_ & Hreplies & _).
  apply Hreplies. reflexivity.
Defined.

(** *** The write path beyond the classified errors *)

Lemma post_result_non_object py_repr (result : json) :
  is_object result = false -> post_result py_repr result = Raise AttributeError.
Proof. destruct result; try reflexivity; discriminate. Qed.

(** X3. When the body of the response parses to something that is not an
    object (a list, a string, a number, [null]), [post] and [post_thread]
    raise [AttributeError], not the classified error, and return nothing. *)
Theorem non_object_response_raises_attribute_error py_repr urlopen self
    message thread_id channel username icon (result : json) :
  is_object result = false ->
  (urlopen (api_request self "chat.postMessage"
              (post_payload self message channel username icon))
   = inr result ->
   post py_repr urlopen self message channel username icon
   = Raise AttributeError)
  /\ (urlopen (api_request self "chat.postMessage"
                 (post_thread_payload self thread_id message channel))
      = inr result ->
      post_thread py_repr urlopen self thread_id message channel
      = Raise AttributeError).
Proof.
  intros Hobj. split; intros Hresp.
  - rewrite (post_parsed _ _ _ _ _ _ _ _ Hresp).
    now apply post_result_non_object.
  - rewrite (post_thread_parsed _ _ _ _ _ _ _ Hresp).
    now apply post_result_non_object.
Qed.

Lemma non_object_response_raises_attribute_error_witness :
  post sample_repr (answers (inr (JArr []))) sample_adapter "Test message"
    None None None = Raise AttributeError
  /\ post_thread sample_repr (answers (inr (JStr "ok"))) sample_adapter
       "1234567890.123456" "Reply" None = Raise AttributeError.
Proof.
  split.
  - destruct (non_object_response_raises_attribute_error sample_repr
                (answers (inr (JArr []))) sample_adapter "Test message"
                "1234567890.123456" None None None (JArr []) eq_refl)
      as [Hpost _].
    apply Hpost. reflexivity.
  - destruct (non_object_response_raises_attribute_error sample_repr
                (answers (inr (JStr "ok"))) sample_adapter "Reply"
                "1234567890.123456" None None None (JStr "ok") eq_refl)
      as [_ Hthread].
    apply Hthread. reflexivity.
Defined.

(** X4. When the success flag is false and the response has an [error]
    key, the message is "Slack API error: " followed by [str] of its value,
    whatever the value: a [null] error reads "None", a number its decimal
    numeral. The "unknown error" text is used for an absent key only. *)
Theorem rejected_message_renders_error_value py_repr urlopen self message
    thread_id channel username icon (d : dict) (v : json) :
  py_truthy (dict_get_default d "ok" JNull) = false ->
  dict_get d "error" = Some v ->
  let rendered :=
    match v with
    | JStr s => s
    | JNull => "None"
    | JBool true => "True"
    | JBool false => "False"
    | JInt z => str_int z
    | _ => py_repr v
    end in
  (urlopen (api_request self "chat.postMessage"
              (post_payload self message channel username icon))
   = inr (JObj d) ->
   post py_repr urlopen self message channel username icon
   = Raise (RuntimeError ("Slack API error: " ++ rendered)))
  /\ (urlopen (api_request self "chat.postMessage"
                 (post_thread_payload self thread_id message channel))
      = inr (JObj d) ->
      post_thread py_repr urlopen self thread_id message channel
      = Raise (RuntimeError ("Slack API error: " ++ rendered))).
Proof.
  intros Hok Herr rendered.
  assert (E : post_result py_repr (JObj d)
              = Raise (RuntimeError ("Slack API error: " ++ rendered))).
  { rewrite (post_result_rejected _ _ Hok). unfold dict_get_default.
    rewrite Herr. reflexivity. }
  split; intros Hresp.
  - now rewrite (post_parsed _ _ _ _ _ _ _ _ Hresp).
  - now rewrite (post_thread_parsed _ _ _ _ _ _ _ Hresp).
Qed.

Lemma rejected_message_renders_error_value_witness :
  post sample_repr
    (answers (inr (JObj [("ok", JBool false); ("error", JNull)])))
    sample_adapter "Test message" None None None
  = Raise (RuntimeError "Slack API error: None").
Proof.
  destruct (rejected_message_renders_error_value sample_repr
              (answers (inr (JObj [("ok", JBool false); ("error", JNull)])))
              sample_adapter "Test message" "1234567890.123456" None None
              None [("ok", JBool false); ("error", JNull)] JNull
              eq_refl eq_refl) as [Hpost _].
  apply Hpost. reflexivity.
Defined.

Lemma post_result_exceptions py_repr (result : json) (e : exn) :
  post_result py_repr result = Raise e -> write_exception e.
Proof.
  destruct result as [| | | | | |d]; try (intros [= <-]; exact I).
  unfold post_result. cbn [py_get bind].
  destruct (py_truthy (dict_get_default d "ok" JNull)); cbn [negb].
  - cbn [py_getitem bind].
    destruct (dict_get d "ts"); cbn [bind];
      [|intros [= <-]; now left].
    destruct (dict_get d "channel"); cbn [bind];
      [discriminate | intros [= <-]; now right].
  - intros [= <-]. right; right.
    apply (prefix_app "Slack API error: ").
Qed.

Lemma api_call_exceptions urlopen self method payload (e : exn) :
  _api_call urlopen self method payload = Raise e -> write_exception e.
Proof.
  unfold _api_call.
  destruct (urlopen _) as [[code reason|text]|result]; [| |discriminate];
    intros [= <-].
  - left. apply (prefix_app "HTTP error: ").
  - right; left. apply (prefix_app "Request failed: ").
Qed.

(** X5. Whatever the remote does, an exception that [post] or
    [post_thread] lets out is a [RuntimeError] whose message starts with
    "HTTP error: ", "Request failed: " or "Slack API error: ", a [KeyError]
    for [ts] or [channel], or an [AttributeError]; the exception of the
    transport itself never reaches the caller. *)
Theorem write_operations_raise_only py_repr urlopen self message thread_id
    channel username icon (e : exn) :
  (post py_repr urlopen self message channel username icon = Raise e ->
   write_exception e /\ forall t, e <> Transport t)
  /\ (post_thread py_repr urlopen self thread_id message channel = Raise e ->
      write_exception e /\ forall t, e <> Transport t).
Proof.
  assert (NoTransport : write_exception e -> forall t, e <> Transport t).
  { intros W t ->. exact W. }
  split; intros H.
  - assert (W : write_exception e).
    { unfold post in H.
      destruct (_api_call _ _ _ _) as [result|e'] eqn:Call; cbn [bind] in H.
      + now apply (post_result_exceptions py_repr result).
      + injection H as <-. now apply api_call_exceptions in Call. }
    split; [exact W | now apply NoTransport].
  - assert (W : write_exception e).
    { unfold post_thread in H.
      destruct (_api_call _ _ _ _) as [result|e'] eqn:Call; cbn [bind] in H.
      + now apply (post_result_exceptions py_repr result).
      + injection H as <-. now apply api_call_exceptions in Call. }
    split; [exact W | now apply NoTransport].
Qed.

Lemma write_operations_raise_only_witness :
  write_exception (RuntimeError "HTTP error: 401 Unauthorized").
Proof.
  destruct (write_operations_raise_only sample_repr
              (answers (inl (HTTPError 401 "Unauthorized"))) sample_adapter
              "Test message" "1234567890.123456" None None None
              (RuntimeError "HTTP error: 401 Unauthorized")) as [Hpost _].
  apply Hpost. reflexivity.
Defined.

(** X6. A thread reply is a plain post with one more key: the payload of
    [post_thread] is the payload of [post] without overrides to which
    [thread_ts], the caller's thread id, is added; it never has a
    [username] or an [icon_emoji] key. Both go to the same URL with the same
    headers, and when the remote answers both requests alike the two
    operations return or raise alike. *)
Theorem post_thread_is_post_with_thread_ts py_repr urlopen self thread_id
    message channel :
  let reply := post_thread_payload self thread_id message channel in
  let plain := post_payload self message channel None None in
  reply = dict_set plain "thread_ts" (JStr thread_id)
  /\ dict_get reply "thread_ts" = Some (JStr thread_id)
  /\ dict_get reply "channel" = dict_get plain "channel"
  /\ dict_get reply "text" = dict_get plain "text"
  /\ dict_get reply "username" = None
  /\ dict_get reply "icon_emoji" = None
  /\ full_url (api_request self "chat.postMessage" reply)
     = full_url (api_request self "chat.postMessage" plain)
  /\ headers (api_request self "chat.postMessage" reply)
     = headers (api_request self "chat.postMessage" plain)
  /\ (urlopen (api_request self "chat.postMessage" reply)
      = urlopen (api_request self "chat.postMessage" plain) ->
      post_thread py_repr urlopen self thread_id message channel
      = post py_repr urlopen self message channel None None).
Proof.
  intros reply plain. repeat split.
  intros H. unfold post_thread, post, _api_call. fold reply plain.
  now rewrite H.
Qed.

Lemma post_thread_is_post_with_thread_ts_witness :
  post_thread sample_repr (answers (inr posted)) sample_adapter
    "1234567890.123456" "Reply" (Some "#test")
  = post sample_repr (answers (inr posted)) sample_adapter "Reply"
      (Some "#test") None None.
Proof.
  destruct (post_thread_is_post_with_thread_ts sample_repr
              (answers (inr posted)) sample_adapter "1234567890.123456"
              "Reply" (Some "#test"))
    as (_ & _ & _ & _ & _ & _ & _ & _ & Hsame).
  apply Hsame. reflexivity.
Defined.


(** *** The read path: malformed entries, absent keys and any limit *)

(** A comprehension over items one of which is not an object raises. *)
Lemma py_map_non_object {B : Type} (f : json -> py B) (items : list json) :
  (forall v, is_object v = false -> f v = Raise AttributeError) ->
  (forall m, exists y, f (JObj m) = Ret y) ->
  forallb is_object items = false ->
  py_map f items = Raise AttributeError.
Proof.
  intros Hbad Hgood. induction items as [|v items IH]; cbn [forallb py_map].
  - discriminate.
  - destruct (is_object v) eqn:Hv; cbn [andb].
    + destruct v; try discriminate.
      destruct (Hgood d) as [y ->]. cbn [bind].
      intros H. now rewrite (IH H).
    + intros _. now rewrite (Hbad v Hv).
Qed.

Lemma reply_message_non_object (v : json) :
  is_object v = false -> reply_message v = Raise AttributeError.
Proof. destruct v; try reflexivity; discriminate. Qed.

Lemma match_message_non_object (v : json) :
  is_object v = false -> match_message v = Raise AttributeError.
Proof. destruct v; try reflexivity; discriminate. Qed.

(** X8. [get_thread_replies] is all or nothing: when one message after the
    first is not an object, the whole result is empty, even if the other
    replies are well formed. *)
Theorem one_malformed_reply_discards_all urlopen self channel thread_id
    (d : dict) (parent : json) (rest : list json) :
  urlopen (get_thread_replies_request self channel thread_id)
  = inr (JObj d) ->
  py_truthy (dict_get_default d "ok" JNull) = true ->
  dict_get d "messages" = Some (JArr (parent :: rest)) ->
  forallb is_object rest = false ->
  get_thread_replies urlopen self channel thread_id = Ret [].
Proof.
  intros Hresp Hok Hmsgs Hbad.
  assert (E : dict_get_default d "messages" (JArr []) = JArr (parent :: rest))
    by (unfold dict_get_default; now rewrite Hmsgs).
  unfold get_thread_replies, round_trip. rewrite Hresp.
  cbn [bind py_get]. rewrite Hok, E. cbn [negb py_len bind].
  destruct rest as [|r rest]; [discriminate|].
  destruct (Z.ltb_spec 1 (Z.of_nat (List.length (parent :: r :: rest))))
    as [_|Short]; [|cbn [List.length] in Short; lia].
  cbn [py_slice_from1 bind py_iter tl].
  rewrite (py_map_non_object reply_message (r :: rest)
             reply_message_non_object); [reflexivity | | exact Hbad].
  intros m. eexists. apply reply_message_object.
Qed.

Lemma one_malformed_reply_discards_all_witness :
  get_thread_replies
    (answers (inr (JObj [("ok", JBool true);
                         ("messages",
                          JArr [message "U123" "Parent message" "1.0";
                                message "U456" "First reply" "1.1";
                                JStr "not a message"])])))
    sample_adapter "C123456" "1.0" = Ret [].
Proof.
  apply (one_malformed_reply_discards_all _ sample_adapter "C123456" "1.0"
           [("ok", JBool true);
            ("messages",
             JArr [message "U123" "Parent message" "1.0";
                   message "U456" "First reply" "1.1";
                   JStr "not a message"])]
           (message "U123" "Parent message" "1.0")
           [message "U456" "First reply" "1.1"; JStr "not a message"]);
    reflexivity.
Defined.

(** What [search] does once the response is an object with a true success
    flag, in terms of the two values its [get] calls read. *)
Lemma search_of_response urlopen self query channel since limit
    (d md : dict) (l : list json) :
  urlopen (search_request self query channel since limit) = inr (JObj d) ->
  py_truthy (dict_get_default d "ok" JNull) = true ->
  dict_get_default d "messages" (JObj []) = JObj md ->
  dict_get_default md "matches" (JArr []) = JArr l ->
  search urlopen self query channel since limit
  = try_except (py_map match_message (slice_to limit l)) (fun _ => Ret []).
Proof.
  intros Hresp Hok E1 E2. unfold search, round_trip. rewrite Hresp.
  cbn [bind py_get]. rewrite Hok, E1. cbn [negb bind py_get]. now rewrite E2.
Qed.

Lemma replies_of_response urlopen self channel thread_id (d : dict)
    (msgs : list json) :
  urlopen (get_thread_replies_request self channel thread_id)
  = inr (JObj d) ->
  py_truthy (dict_get_default d "ok" JNull) = true ->
  dict_get_default d "messages" (JArr []) = JArr msgs ->
  get_thread_replies urlopen self channel thread_id
  = try_except
      (n <- py_len (JArr msgs) ;;
       rest <- (if 1 <? n then py_slice_from1 (JArr msgs)
                else Ret (JArr [])) ;;
       items <- py_iter rest ;;
       py_map reply_message items)
      (fun _ => Ret []).
Proof.
  intros Hresp Hok E. unfold get_thread_replies, round_trip. rewrite Hresp.
  cbn [bind py_get]. now rewrite Hok, E.
Qed.

(** X9. [search] reads only the slice [matches[:limit]]: when the matches
    in the slice are objects the result is their mapping, whatever lies
    beyond the slice; when one match in the slice is not an object the
    whole result is empty. *)
Theorem search_reads_only_the_slice urlopen self query channel since limit
    (d md : dict) (l : list json) :
  urlopen (search_request self query channel since limit) = inr (JObj d) ->
  py_truthy (dict_get_default d "ok" JNull) = true ->
  dict_get d "messages" = Some (JObj md) ->
  dict_get md "matches" = Some (JArr l) ->
  (forall ms, slice_to limit l = map JObj ms ->
     search urlopen self query channel since limit
     = Ret (map (fun m =>
                   ThreadMessage.make
                     (dict_get_default m "user"
                        (dict_get_default m "username" (JStr "unknown")))
                     (dict_get_default m "text" (JStr ""))
                     (dict_get_default m "ts" (JStr ""))) ms))
  /\ (forallb is_object (slice_to limit l) = false ->
      search urlopen self query channel since limit = Ret []).
Proof.
  intros Hresp Hok Hmd Hl.
  assert (E1 : dict_get_default d "messages" (JObj []) = JObj md)
    by (unfold dict_get_default; now rewrite Hmd).
  assert (E2 : dict_get_default md "matches" (JArr []) = JArr l)
    by (unfold dict_get_default; now rewrite Hl).
  rewrite (search_of_response _ _ _ _ _ _ _ _ _ Hresp Hok E1 E2).
  split.
  - intros ms ->.
    now rewrite (py_map_objects _ _ _ match_message_object).
  - intros Hbad.
    rewrite (py_map_non_object match_message _ match_message_non_object);
      [reflexivity | | exact Hbad].
    intros m. eexists. apply match_message_object.
Qed.

Lemma search_reads_only_the_slice_witness :
  search
    (answers (inr (JObj [("ok", JBool true);
                         ("messages",
                          JObj [("matches",
                                 JArr [message "U1" "Message 1" "1.1";
                                       JInt 7])])])))
    sample_adapter "test query" None None 1
  = Ret [ThreadMessage.make (JStr "U1") (JStr "Message 1") (JStr "1.1")]
  /\ search
       (answers (inr (JObj [("ok", JBool true);
                            ("messages",
                             JObj [("matches",
                                    JArr [message "U1" "Message 1" "1.1";
                                          JInt 7])])])))
       sample_adapter "test query" None None 2
     = Ret [].
Proof.
  split.
  - destruct (search_reads_only_the_slice
                (answers (inr (JObj [("ok", JBool true);
                                     ("messages",
                                      JObj [("matches",
                                             JArr [message "U1" "Message 1"
                                                     "1.1";
                                                   JInt 7])])])))
                sample_adapter "test query" None None 1
                [("ok", JBool true);
                 ("messages",
                  JObj [("matches",
                         JArr [message "U1" "Message 1" "1.1"; JInt 7])])]
                [("matches", JArr [message "U1" "Message 1" "1.1"; JInt 7])]
                [message "U1" "Message 1" "1.1"; JInt 7]
                eq_refl eq_refl eq_refl eq_refl) as [Hin _].
    apply (Hin [[("user", JStr "U1"); ("text", JStr "Message 1");
                 ("ts", JStr "1.1")]]).
    reflexivity.
  - destruct (search_reads_only_the_slice
                (answers (inr (JObj [("ok", JBool true);
                                     ("messages",
                                      JObj [("matches",
                                             JArr [message "U1" "Message 1"
                                                     "1.1";
                                                   JInt 7])])])))
                sample_adapter "test query" None None 2
                [("ok", JBool true);
                 ("messages",
                  JObj [("matches",
                         JArr [message "U1" "Message 1" "1.1"; JInt 7])])]
                [("matches", JArr [message "U1" "Message 1" "1.1"; JInt 7])]
                [message "U1" "Message 1" "1.1"; JInt 7]
                eq_refl eq_refl eq_refl eq_refl) as [_ Hout].
    apply Hout. reflexivity.
Defined.

Lemma slice_to_length {A : Type} (stop : Z) (l : list A) :
  Z.of_nat (List.length (slice_to stop l))
  = if 0 <=? stop then Z.min stop (Z.of_nat (List.length l))
    else Z.max (Z.of_nat (List.length l) + stop) 0.
Proof.
  unfold slice_to. destruct (Z.leb_spec 0 stop); rewrite length_firstn; lia.
Qed.

(** X10. The limit of [search] for any integer. On a successful response
    whose matches are objects, the result is an initial segment of the
    mapped matches, in their order. Its length is the lesser of [limit] and
    the number of matches when [limit] is not negative (none for 0); for a
    negative [limit] the last [-limit] matches are dropped instead. *)
Theorem search_limit_of_any_sign urlopen self query channel since limit
    (d md : dict) (ms : list dict) :
  urlopen (search_request self query channel since limit) = inr (JObj d) ->
  py_truthy (dict_get_default d "ok" JNull) = true ->
  dict_get d "messages" = Some (JObj md) ->
  dict_get md "matches" = Some (JArr (map JObj ms)) ->
  let all :=
    map (fun m =>
           thread_message (dict_get_default m "username" (JStr "unknown")) m)
      ms in
  exists shown,
    search urlopen self query channel since limit = Ret shown
    /\ (exists dropped, all = (shown ++ dropped)%list)
    /\ Z.of_nat (List.length shown)
       = (if 0 <=? limit then Z.min limit (Z.of_nat (List.length ms))
          else Z.max (Z.of_nat (List.length ms) + limit) 0).
Proof.
  intros Hresp Hok Hmd Hms all.
  rewrite (search_maps_slice _ _ _ _ _ _ _ _ _ Hresp Hok Hmd Hms).
  eexists. split; [reflexivity|]. split.
  - destruct (slice_to_initial limit ms) as [rest Hrest].
    exists (map (fun m =>
                   thread_message
                     (dict_get_default m "username" (JStr "unknown")) m)
              rest).
    subst all. rewrite <- map_app. now rewrite <- Hrest.
  - rewrite length_map. apply slice_to_length.
Qed.

Lemma search_limit_of_any_sign_witness :
  exists shown,
    search (answers (inr three_matches)) sample_adapter "test query" None
      None (-2) = Ret shown
    /\ Z.of_nat (List.length shown) = 1.
Proof.
  destruct (search_limit_of_any_sign (answers (inr three_matches))
              sample_adapter "test query" None None (-2)
              [("ok", JBool true);
               ("messages",
                JObj [("matches",
                       JArr [message "U1" "Message 1" "1.1";
                             JObj [("username", JStr "bot");
                                   ("text", JStr "Message 2")];
                             message "U3" "Message 3" "1.3"])])]
              [("matches",
                JArr [message "U1" "Message 1" "1.1";
                      JObj [("username", JStr "bot");
                            ("text", JStr "Message 2")];
                      message "U3" "Message 3" "1.3"])]
              [[("user", JStr "U1"); ("text", JStr "Message 1");
                ("ts", JStr "1.1")];
               [("username", JStr "bot"); ("text", JStr "Message 2")];
               [("user", JStr "U3"); ("text", JStr "Message 3");
                ("ts", JStr "1.3")]]
              eq_refl eq_refl eq_refl eq_refl)
    as (shown & Hshown & _ & Hlen).
  exists shown. split; [exact Hshown | exact Hlen].
Defined.

(** X11. A successful response that lacks the collection gives the empty
    list: no [messages] key for [get_thread_replies]; no [messages] key, or
    a [messages] object without a [matches] key, for [search]. *)
Theorem absent_collection_gives_empty urlopen self channel thread_id query
    destination since limit (d : dict) :
  py_truthy (dict_get_default d "ok" JNull) = true ->
  (urlopen (get_thread_replies_request self channel thread_id)
   = inr (JObj d) ->
   dict_get d "messages" = None ->
   get_thread_replies urlopen self channel thread_id = Ret [])
  /\ (urlopen (search_request self query destination since limit)
      = inr (JObj d) ->
      dict_get d "messages" = None
      \/ (exists md, dict_get d "messages" = Some (JObj md)
                     /\ dict_get md "matches" = None) ->
      search urlopen self query destination since limit = Ret []).
Proof.
  intros Hok. split; intros Hresp Habsent.
  - rewrite (replies_of_response _ _ _ _ d [] Hresp Hok); [reflexivity|].
    unfold dict_get_default. now rewrite Habsent.
  - assert (Empty : forall stop : Z, slice_to stop (@nil json) = [])
      by (intros stop; unfold slice_to; destruct (0 <=? stop);
          apply firstn_nil).
    destruct Habsent as [Hnone | (md & Hmd & Hnone)].
    + rewrite (search_of_response _ _ _ _ _ _ d [] [] Hresp Hok);
        [now rewrite Empty | |reflexivity].
      unfold dict_get_default. now rewrite Hnone.
    + rewrite (search_of_response _ _ _ _ _ _ d md [] Hresp Hok);
        [now rewrite Empty | |].
      * unfold dict_get_default. now rewrite Hmd.
      * unfold dict_get_default. now rewrite Hnone.
Qed.

Lemma absent_collection_gives_empty_witness :
  get_thread_replies (answers (inr (JObj [("ok", JBool true)])))
    sample_adapter "C123456" "1.0" = Ret []
  /\ search
       (answers (inr (JObj [("ok", JBool true); ("messages", JObj [])])))
       sample_adapter "test query" None None 50 = Ret [].
Proof.
  split.
  - destruct (absent_collection_gives_empty
                (answers (inr (JObj [("ok", JBool true)]))) sample_adapter
                "C123456" "1.0" "test query" None None 50
                [("ok", JBool true)] eq_refl) as [Hreplies _].
    apply Hreplies; reflexivity.
  - destruct (absent_collection_gives_empty
                (answers (inr (JObj [("ok", JBool true);
                                     ("messages", JObj [])])))
                sample_adapter "C123456" "1.0" "test query" None None 50
                [("ok", JBool true); ("messages", JObj [])] eq_refl)
      as [_ Hsearch].
    apply Hsearch; [reflexivity|].
    right. exists []. split; reflexivity.
Defined.

(** On the encoded arguments, a non-empty result and a well-formed
    response go together. *)
Lemma replies_cons_iff urlopen self channel thread_id
    (x : ThreadMessage.t) (xs : list ThreadMessage.t) :
  get_thread_replies urlopen self channel thread_id = Ret (x :: xs)
  <->
  exists d parent rs,
    urlopen (get_thread_replies_request self channel thread_id)
    = inr (JObj d)
    /\ py_truthy (dict_get_default d "ok" JNull) = true
    /\ dict_get_default d "messages" (JArr []) = JArr (parent :: map JObj rs)
    /\ x :: xs = map (thread_message (JStr "unknown")) rs.
Proof.
  split.
  - intros H.
    destruct (nonempty_replies_need_wellformed _ _ _ _ _ _ H)
      as (d & parent & rs & Hresp & Hok & E).
    exists d, parent, rs. repeat split; trivial.
    rewrite (replies_of_response _ _ _ _ _ _ Hresp Hok E) in H.
    rewrite (replies_of_list (parent :: map JObj rs) rs eq_refl) in H.
    now injection H.
  - intros (d & parent & rs & Hresp & Hok & E & ->).
    rewrite (replies_of_response _ _ _ _ _ _ Hresp Hok E).
    now rewrite (replies_of_list (parent :: map JObj rs) rs eq_refl).
Qed.

Lemma search_cons_iff urlopen self query channel since
    limit (x : ThreadMessage.t) (xs : list ThreadMessage.t) :
  search urlopen self query channel since limit = Ret (x :: xs)
  <->
  exists d md l ms,
    urlopen (search_request self query channel since limit) = inr (JObj d)
    /\ py_truthy (dict_get_default d "ok" JNull) = true
    /\ dict_get_default d "messages" (JObj []) = JObj md
    /\ dict_get_default md "matches" (JArr []) = JArr l
    /\ slice_to limit l = map JObj ms
    /\ x :: xs
       = map (fun m =>
                thread_message
                  (dict_get_default m "username" (JStr "unknown")) m) ms.
Proof.
  split.
  - intros H.
    destruct (nonempty_search_needs_wellformed _ _ _ _ _ _ _ _ H)
      as (d & md & l & ms & Hresp & Hok & E1 & E2 & Hslice).
    exists d, md, l, ms. repeat split; trivial.
    rewrite (search_of_response _ _ _ _ _ _ _ _ _ Hresp Hok E1 E2) in H.
    rewrite Hslice, (py_map_objects _ _ _ match_message_object) in H.
    now injection H.
  - intros (d & md & l & ms & Hresp & Hok & E1 & E2 & Hslice & ->).
    rewrite (search_of_response _ _ _ _ _ _ _ _ _ Hresp Hok E1 E2).
    now rewrite Hslice, (py_map_objects _ _ _ match_message_object).
Qed.

Lemma post_result_returns_iff py_repr (result : json) (r : PostResult.t) :
  post_result py_repr result = Ret r
  <->
  exists d ts ch,
    result = JObj d
    /\ py_truthy (dict_get_default d "ok" JNull) = true
    /\ dict_get d "ts" = Some ts
    /\ dict_get d "channel" = Some ch
    /\ r = PostResult.make ts ch ts.
Proof.
  split.
  - destruct result as [| | | | | |d]; try discriminate.
    unfold post_result. cbn [py_get bind].
    destruct (py_truthy (dict_get_default d "ok" JNull)) eqn:Hok;
      cbn [negb]; [|discriminate].
    cbn [py_getitem bind].
    destruct (dict_get d "ts") as [ts|] eqn:Hts; cbn [bind]; [|discriminate].
    destruct (dict_get d "channel") as [ch|] eqn:Hch; cbn [bind];
      [|discriminate].
    intros [= <-]. now exists d, ts, ch.
  - intros (d & ts & ch & -> & Hok & Hts & Hch & ->).
    rewrite (post_result_accepted _ _ Hok). cbn [py_getitem bind].
    now rewrite Hts, Hch.
Qed.

(** X14. A write operation returns a result only for an accepted message:
    [post] and [post_thread] return a given [PostResult] exactly when the
    round trip did not raise and the response is an object with a true
    success flag and both a [ts] and a [channel] key, and the result holds
    these two values. In every other case they raise. *)
Theorem write_operations_return_iff_accepted py_repr urlopen self message
    thread_id channel username icon (r : PostResult.t) :
  (post py_repr urlopen self message channel username icon = Ret r
   <->
   exists d ts ch,
     urlopen (api_request self "chat.postMessage"
                (post_payload self message channel username icon))
     = inr (JObj d)
     /\ py_truthy (dict_get_default d "ok" JNull) = true
     /\ dict_get d "ts" = Some ts
     /\ dict_get d "channel" = Some ch
     /\ r = PostResult.make ts ch ts)
  /\
  (post_thread py_repr urlopen self thread_id message channel = Ret r
   <->
   exists d ts ch,
     urlopen (api_request self "chat.postMessage"
                (post_thread_payload self thread_id message channel))
     = inr (JObj d)
     /\ py_truthy (dict_get_default d "ok" JNull) = true
     /\ dict_get d "ts" = Some ts
     /\ dict_get d "channel" = Some ch
     /\ r = PostResult.make ts ch ts).
Proof.
  split; split.
  - unfold post, _api_call.
    destruct (urlopen _) as [[code reason|text]|result] eqn:Hresp;
      try discriminate.
    cbn [bind]. intros H. apply post_result_returns_iff in H.
    destruct H as (d & ts & ch & -> & H). now exists d, ts, ch.
  - intros (d & ts & ch & Hresp & H).
    rewrite (post_parsed _ _ _ _ _ _ _ _ Hresp).
    apply post_result_returns_iff. now exists d, ts, ch.
  - unfold post_thread, _api_call.
    destruct (urlopen _) as [[code reason|text]|result] eqn:Hresp;
      try discriminate.
    cbn [bind]. intros H. apply post_result_returns_iff in H.
    destruct H as (d & ts & ch & -> & H). now exists d, ts, ch.
  - intros (d & ts & ch & Hresp & H).
    rewrite (post_thread_parsed _ _ _ _ _ _ _ Hresp).
    apply post_result_returns_iff. now exists d, ts, ch.
Qed.

Lemma write_operations_return_iff_accepted_witness :
  post sample_repr (answers (inr posted)) sample_adapter "Test message"
    None None None
  = Ret (PostResult.make (JStr "1234567890.123456") (JStr "C123456")
           (JStr "1234567890.123456")).
Proof.
  apply (write_operations_return_iff_accepted sample_repr
           (answers (inr posted)) sample_adapter "Test message"
           "1234567890.123456" None None None).
  exists [("ok", JBool true); ("ts", JStr "1234567890.123456");
          ("channel", JStr "C123456")],
         (JStr "1234567890.123456"), (JStr "C123456").
  repeat split.
Defined.

(** ** The read operations as called: arguments that cannot be encoded *)

Lemma utf8_char_outcome (cp : N) :
  (is_surrogate cp = false /\ exists c, utf8_char cp = Ret c)
  \/ (is_surrogate cp = true /\ utf8_char cp = Raise UnicodeEncodeError).
Proof.
  unfold utf8_char.
  destruct (is_surrogate cp) eqn:Hs.
  - right. split; [reflexivity|]. unfold is_surrogate in Hs.
    apply andb_true_iff in Hs as [Hlow _]. apply N.leb_le in Hlow.
    destruct (N.ltb_spec cp 128); [lia|].
    destruct (N.ltb_spec cp 2048); [lia|]. reflexivity.
  - left. split; [reflexivity|].
    destruct (cp <? 128)%N; [eauto|].
    destruct (cp <? 2048)%N; [eauto|].
    destruct (cp <? 65536)%N; eauto.
Qed.

(** Encoding fails exactly on a string with a lone surrogate, and then with
    [UnicodeEncodeError]. *)
Lemma utf8_encode_outcome (s : pystr) :
  (existsb is_surrogate s = false /\ exists b, utf8_encode s = Ret b)
  \/ (existsb is_surrogate s = true
      /\ utf8_encode s = Raise UnicodeEncodeError).
Proof.
  induction s as [|cp s IH]; cbn [existsb utf8_encode].
  - left. split; [reflexivity | now exists ""].
  - destruct (utf8_char_outcome cp) as [(-> & c & ->) | (-> & ->)];
      cbn [orb bind]; [|now right].
    destruct IH as [(-> & b & ->) | (-> & ->)]; cbn [bind].
    + left. split; [reflexivity | now exists (c ++ b)].
    + now right.
Qed.

(** The encoding of a concatenation is the concatenation of the encodings:
    the composed query of [search] can be encoded exactly when its parts
    can. *)
Lemma utf8_encode_app (a b : pystr) :
  utf8_encode (a ++ b)%list
  = (x <- utf8_encode a ;; y <- utf8_encode b ;; Ret (x ++ y)).
Proof.
  induction a as [|cp a IH]; cbn [app utf8_encode bind].
  - now destruct (utf8_encode b).
  - destruct (utf8_char cp) as [c|e]; cbn [bind]; [|reflexivity].
    rewrite IH. destruct (utf8_encode a) as [x|e]; cbn [bind]; [|reflexivity].
    destruct (utf8_encode b) as [y|e]; cbn [bind]; [|reflexivity].
    now rewrite append_assoc.
Qed.

(** A string and its encoding are empty together, so the tests [if
    channel:] on either agree. *)
Lemma utf8_encode_truthy (s : pystr) (b : string) :
  utf8_encode s = Ret b ->
  truthy_str b = match s with [] => false | _ :: _ => true end.
Proof.
  destruct s as [|cp s]; cbn [utf8_encode].
  - now intros [= <-].
  - unfold utf8_char.
    destruct (cp <? 128)%N; [|destruct (cp <? 2048)%N;
      [|destruct (is_surrogate cp); [discriminate|destruct (cp <? 65536)%N]]];
      cbn [bind]; destruct (utf8_encode s); cbn [bind];
      try discriminate; now intros [= <-].
Qed.

Lemma get_thread_replies_call_encoded urlopen self channel thread_id cb tb :
  utf8_encode channel = Ret cb -> utf8_encode thread_id = Ret tb ->
  get_thread_replies_call urlopen self channel thread_id
  = get_thread_replies urlopen self cb tb.
Proof. intros Hc Ht. unfold get_thread_replies_call. now rewrite Hc, Ht. Qed.

Lemma search_call_encoded urlopen self query channel since limit qb db :
  utf8_encode query = Ret qb -> utf8_encode_arg channel = Ret db ->
  search_call urlopen self query channel since limit
  = search urlopen self qb db since limit.
Proof. intros Hq Hc. unfold search_call. now rewrite Hq, Hc. Qed.

Lemma get_thread_replies_call_surrogate urlopen self channel thread_id :
  existsb is_surrogate channel || existsb is_surrogate thread_id = true ->
  get_thread_replies_call urlopen self channel thread_id
  = Raise UnicodeEncodeError.
Proof.
  intros H. unfold get_thread_replies_call.
  destruct (utf8_encode_outcome channel) as [(Hc & cb & ->) | (_ & ->)];
    [|reflexivity].
  cbn [bind]. rewrite Hc in H. cbn [orb] in H.
  destruct (utf8_encode_outcome thread_id) as [(Ht & _) | (_ & ->)];
    [congruence | reflexivity].
Qed.

Lemma search_call_surrogate urlopen self query channel since limit :
  existsb is_surrogate query
  || match channel with
     | Some c => existsb is_surrogate c
     | None => false
     end = true ->
  search_call urlopen self query channel since limit
  = Raise UnicodeEncodeError.
Proof.
  intros H. unfold search_call.
  destruct (utf8_encode_outcome query) as [(Hq & qb & ->) | (_ & ->)];
    [|reflexivity].
  cbn [bind]. rewrite Hq in H. cbn [orb] in H.
  destruct channel as [c|]; [|discriminate]. cbn [utf8_encode_arg].
  destruct (utf8_encode_outcome c) as [(Hc & _) | (_ & ->)];
    [congruence | reflexivity].
Qed.

(** A result of a read operation on encoded arguments is empty or the
    mapping of a well-formed response. *)
Lemma replies_empty_or_answer urlopen self cb tb :
  exists l,
    get_thread_replies urlopen self cb tb = Ret l
    /\ (l = [] \/ replies_answer
                    (urlopen (get_thread_replies_request self cb tb)) l).
Proof.
  destruct (try_except_returns
              (result <- round_trip urlopen
                           (get_thread_replies_request self cb tb) ;;
               ok <- py_get result "ok" JNull ;;
               if negb (py_truthy ok) then Ret []
               else
                 messages <- py_get result "messages" (JArr []) ;;
                 n <- py_len messages ;;
                 replies <- (if 1 <? n then py_slice_from1 messages
                             else Ret (JArr [])) ;;
                 items <- py_iter replies ;;
                 py_map reply_message items)) as [l Hl].
  fold (get_thread_replies urlopen self cb tb) in Hl.
  exists l. split; [exact Hl|].
  destruct l as [|x xs]; [now left | right].
  now apply replies_cons_iff.
Qed.

Lemma search_empty_or_answer urlopen self qb db since limit :
  exists l,
    search urlopen self qb db since limit = Ret l
    /\ (l = [] \/ search_answer limit
                    (urlopen (search_request self qb db since limit)) l).
Proof.
  destruct (read_bodies_fail_soft urlopen self "" "" qb db since limit)
    as (_ & [l Hl] & _).
  exists l. split; [exact Hl|].
  destruct l as [|x xs]; [now left | right].
  now apply search_cons_iff.
Qed.




(** X12. The outcomes of a call of [get_thread_replies], in full. With a
    lone surrogate in the channel or the thread id it raises
    [UnicodeEncodeError], whatever the remote. Otherwise both strings
    encode, and the call returns a given non-empty list exactly when the
    response is an object with a true success flag whose [messages] is a
    list of one entry followed by objects, the list being the mapping of
    these objects; for every other remote outcome it returns the empty
    list. *)
Theorem replies_call_outcomes urlopen self channel thread_id :
  (existsb is_surrogate channel || existsb is_surrogate thread_id = true ->
   get_thread_replies_call urlopen self channel thread_id
   = Raise UnicodeEncodeError)
  /\ (existsb is_surrogate channel || existsb is_surrogate thread_id = false ->
      exists cb tb,
        utf8_encode channel = Ret cb /\ utf8_encode thread_id = Ret tb)
  /\ (forall cb tb,
        utf8_encode channel = Ret cb -> utf8_encode thread_id = Ret tb ->
        let answered := urlopen (get_thread_replies_request self cb tb) in
        (forall x xs,
           get_thread_replies_call urlopen self channel thread_id
           = Ret (x :: xs)
           <-> replies_answer answered (x :: xs))
        /\ ((forall x xs, ~ replies_answer answered (x :: xs)) ->
            get_thread_replies_call urlopen self channel thread_id = Ret [])).
Proof.
  split; [apply get_thread_replies_call_surrogate|]. split.
  - intros H. apply orb_false_iff in H as [Hc Ht].
    destruct (utf8_encode_outcome channel) as [(_ & cb & Ec) | (Hc' & _)];
      [|congruence].
    destruct (utf8_encode_outcome thread_id) as [(_ & tb & Et) | (Ht' & _)];
      [|congruence].
    now exists cb, tb.
  - intros cb tb Hc Ht answered.
    rewrite (get_thread_replies_call_encoded _ _ _ _ _ _ Hc Ht). split.
    + intros x xs. apply replies_cons_iff.
    + intros Hnone.
      destruct (replies_empty_or_answer urlopen self cb tb)
        as (l & Hl & [-> | Hans]); [exact Hl|].
      destruct l as [|x xs]; [exact Hl|]. now elim (Hnone x xs).
Qed.

Lemma replies_call_outcomes_witness :
  get_thread_replies_call (answers (inr thread_of_three)) sample_adapter
    lone_surrogate (ascii_str "1234567890.123456")
  = Raise UnicodeEncodeError
  /\ get_thread_replies_call (answers (inl (OtherException "timed out")))
       sample_adapter (ascii_str "C123456") (ascii_str "1234567890.123456")
     = Ret [].
Proof.
  split.
  - apply (replies_call_outcomes (answers (inr thread_of_three))
             sample_adapter lone_surrogate (ascii_str "1234567890.123456")).
    reflexivity.
  - destruct (replies_call_outcomes (answers (inl (OtherException "timed out")))
                sample_adapter (ascii_str "C123456")
                (ascii_str "1234567890.123456")) as (_ & _ & Henc).
    destruct (Henc "C123456" "1234567890.123456" eq_refl eq_refl)
      as [_ Hnone].
    apply Hnone. intros x xs (d & parent & rs & Habs & _). discriminate.
Defined.


